(** * AgModelBench: the A2A entry point (a2a_server.py, schema.py)

    A shallow embedding of the request-to-response pipeline of
    [a2a_entrypoint_package]: the input extractor
    [_extract_input_from_jsonrpc], the JSON-RPC envelope builders, the
    single-item handler [_handle_single_jsonrpc], the batch loop of
    [jsonrpc_root], the stub agent, and the output schema of [schema.py].

    Python values are JSON-like values; a Python [dict] with string keys is
    a finite map [gmap string json]; a Python exception is an explicit
    [Raise] outcome. *)

From Stdlib Require Import ZArith String Ascii.
From Stdlib Require Import Floats.SpecFloat.
From stdpp Require Import gmap strings list fin_maps pretty.

Set Warnings "-register-all,-clear-no-such-hyp".
Open Scope string_scope.
Open Scope list_scope.

(** ** Python values *)

(** The values [req.json()] produces, and the ones the handler builds:
    [None], [bool], [int], [float], [str], [list] and [dict].  A [str] is a
    sequence of characters, each read as the code point of its number
    (0..255); a [float] is an IEEE-754 value. *)
Inductive json :=
| JNull
| JBool (b : bool)
| JInt (z : Z)
| JFloat (f : spec_float)
| JStr (s : string)
| JList (l : list json)
| JDict (d : gmap string json).

(** [d.get(k)]: the value at [k], [None] when the key is absent. *)
Definition py_get (d : gmap string json) (k : string) : json :=
  default JNull (d !! k).

(** [d.get(k, dflt)]. *)
Definition py_get_default (d : gmap string json) (k : string) (dflt : json) : json :=
  default dflt (d !! k).

(** [k in d]. *)
Definition py_in (k : string) (d : gmap string json) : bool :=
  bool_decide (is_Some (d !! k)).

(** Truth value of a Python object, as [if x:], [not x] and [x or y] use it:
    [None], [False], zero, and every empty string or container are false. *)
Definition truthy (v : json) : bool :=
  match v with
  | JNull => false
  | JBool b => b
  | JInt z => negb (z =? 0)%Z
  | JFloat (S754_zero _) => false
  | JFloat _ => true
  | JStr s => negb (String.eqb s "")
  | JList l => negb (Nat.eqb (length l) 0)
  | JDict d => negb (Nat.eqb (size d) 0)
  end.

(** [x or y]. *)
Definition py_or (x y : json) : json := if truthy x then x else y.

(** ** [str.strip()] *)

(** [str.isspace] on one character: the white space of Unicode below 256,
    that is TAB..CR, FS..US, SPACE, NEL and NBSP. *)
Definition py_isspace (c : ascii) : bool :=
  let n := N_of_ascii c in
  ((9 <=? n) && (n <=? 13) || (28 <=? n) && (n <=? 32)
   || (n =? 133) || (n =? 160))%N.

Fixpoint py_lstrip (s : string) : string :=
  match s with
  | EmptyString => EmptyString
  | String c r => if py_isspace c then py_lstrip r else s
  end.

Fixpoint py_rstrip (s : string) : string :=
  match s with
  | EmptyString => EmptyString
  | String c r =>
      match py_rstrip r with
      | EmptyString => if py_isspace c then EmptyString else String c EmptyString
      | r' => String c r'
      end
  end.

(** [s.strip()]: leading and trailing white space removed. *)
Definition py_strip (s : string) : string := py_rstrip (py_lstrip s).

(** ** The input extractor *)

(** [for k in [...]: if isinstance(params.get(k), str) and params[k].strip():
    return params[k], meta]: the value returned by the first iteration that
    returns, [None] when the loop runs to its end. *)
Fixpoint direct_fields_loop (params : gmap string json) (ks : list string)
  : option string :=
  match ks with
  | [] => None
  | k :: ks' =>
      match py_get params k with
      | JStr s => if truthy (JStr (py_strip s)) then Some s
                  else direct_fields_loop params ks'
      | _ => direct_fields_loop params ks'
      end
  end.

Definition direct_fields : list string :=
  ["input_text"; "text"; "chunk_text"; "content"].

(** [_extract_input_from_jsonrpc(params)], returning [(text, meta)]. *)
Definition _extract_input_from_jsonrpc (params : json)
  : option string * gmap string json :=
  let meta : gmap string json := ∅ in
  match params with
  | JDict params =>
      let meta :=
        if py_in "task_id" params
        then <["task_id" := py_get params "task_id"]> meta else meta in
      let meta :=
        match params !! "schema" with
        | Some (JDict schema) =>
            <["schema_version" := py_get schema "version"]>
              (<["schema_name" := py_get schema "name"]> meta)
        | _ => meta
        end in
      let paper := py_get params "paper" in
      let meta :=
        match paper with
        | JDict paper =>
            <["input_doi" := py_or (py_get paper "doi") (py_get meta "input_doi")]> meta
        | _ => meta
        end in
      let inp :=
        match py_get params "input" with
        | JDict i => JDict i
        | _ => JNull
        end in
      let fallback meta := (direct_fields_loop params direct_fields, meta) in
      match inp with
      | JDict i =>
          if truthy inp then
            let meta := <["chunk_id" := py_get i "chunk_id"]> meta in
            let meta := <["content_type" := py_get i "content_type"]> meta in
            let text := py_get i "text" in
            match text with
            | JStr t => if truthy (JStr (py_strip t)) then (Some t, meta)
                        else fallback meta
            | _ => fallback meta
            end
          else fallback meta
      | _ => fallback meta
      end
  | _ => (None, meta)
  end.

(** The six keys the extractor ever writes into [meta]. *)
Definition meta_keys : gset string :=
  {[ "task_id"; "schema_name"; "schema_version"; "input_doi"; "chunk_id";
     "content_type" ]}.

(** A string that is not empty and not made of white space only. *)
Definition nonblank (s : string) : Prop :=
  ∃ c, In c (list_ascii_of_string s) ∧ py_isspace c = false.

(** ** Outcomes and effects of the handler *)

(** What a Python call can end with besides a value.  [body.get] on a value
    that is not a [dict] raises [AttributeError]; the injected agent
    function may raise anything. *)
Inductive exn :=
| AttributeError
| AgentException (name : string).

Inductive result (A : Type) :=
| Ok (a : A)
| Raise (e : exn).
Arguments Ok {A} a.
Arguments Raise {A} e.

(** The calls the handler makes to its three collaborators, in order. *)
Inductive event :=
| EvExtract (params : json)
| EvAgent (text : string) (meta : gmap string json)
| EvValidate (output : json).

(** A handler computation: the calls made so far and how it ended. *)
Record M (A : Type) := MkM { trace : list event; outcome : result A }.
Arguments MkM {A} trace outcome.
Arguments trace {A} m.
Arguments outcome {A} m.

#[global] Instance M_ret : MRet M := λ A a, MkM [] (Ok a).
#[global] Instance M_bind : MBind M := λ A B f m,
  match outcome m with
  | Ok a => let r := f a in MkM (trace m ++ trace r) (outcome r)
  | Raise e => MkM (trace m) (Raise e)
  end.

Definition raise {A} (e : exn) : M A := MkM [] (Raise e).
Definition emit (ev : event) : M unit := MkM [ev] (Ok tt).

(** The external agent function: [(text, meta)] to a value, or an exception. *)
Definition agent_fn : Type := string → gmap string json → result json.

(** ** The output schema (schema.py) *)

Record Paper := {
  doi : option string;
  title : option string;
  year : option (Z + string);
  Paper_extra : gmap string json
}.

Record Equation := {
  latex : option string;
  model_performance : json;
  Equation_extra : gmap string json
}.

Record ExtractionMetadata := {
  task_id : option string;
  input_doi : option string;
  schema_name : option string;
  schema_version : option string;
  ExtractionMetadata_extra : gmap string json
}.

Record ExtractionOutput := {
  paper : Paper;
  equations : list Equation;
  extraction_metadata : ExtractionMetadata;
  ExtractionOutput_extra : gmap string json
}.

Definition Paper_fields : list string := ["doi"; "title"; "year"].
Definition Equation_fields : list string := ["latex"; "model_performance"].
Definition ExtractionMetadata_fields : list string :=
  ["task_id"; "input_doi"; "schema_name"; "schema_version"].
Definition ExtractionOutput_fields : list string :=
  ["paper"; "equations"; "extraction_metadata"].

(** ** Validation *)

(** One step of an error location: a name (of a field, or of the member of
    a union that was tried) or an index into a list. *)
Inductive loc_item :=
| LKey (k : string)
| LIndex (i : nat).

(** One entry of [ValidationError.errors()]; [err_ctx] is the context some
    kinds of error carry, absent for the others. *)
Record line_error := {
  err_type : string;
  err_loc : list loc_item;
  err_msg : string;
  err_input : json;
  err_ctx : option (gmap string json)
}.

Inductive validation (A : Type) :=
| Valid (a : A)
| Invalid (errs : list line_error).
Arguments Valid {A} a.
Arguments Invalid {A} errs.

Definition vmap {A B} (f : A → B) (x : validation A) : validation B :=
  match x with
  | Valid a => Valid (f a)
  | Invalid e => Invalid e
  end.

(** Applying a constructor to validated fields: the errors of every field
    are kept, in field order. *)
Definition vap {A B} (f : validation (A → B)) (x : validation A) : validation B :=
  match f, x with
  | Valid g, Valid a => Valid (g a)
  | Valid _, Invalid e => Invalid e
  | Invalid e, Valid _ => Invalid e
  | Invalid e1, Invalid e2 => Invalid (e1 ++ e2)
  end.

Infix "<*>" := vap (at level 61, left associativity).

Definition errors_of {A} (x : validation A) : list line_error :=
  match x with
  | Valid _ => []
  | Invalid e => e
  end.

(** An error found below [i] is reported with [i] in front of its location. *)
Definition at_loc (i : loc_item) (e : line_error) : line_error :=
  {| err_type := err_type e; err_loc := i :: err_loc e;
     err_msg := err_msg e; err_input := err_input e;
     err_ctx := err_ctx e |}.

Definition with_loc {A} (i : loc_item) (x : validation A) : validation A :=
  match x with
  | Valid a => Valid a
  | Invalid e => Invalid (at_loc i <$> e)
  end.

Definition error (type msg : string) (input : json) : line_error :=
  {| err_type := type; err_loc := []; err_msg := msg; err_input := input;
     err_ctx := None |}.

Definition string_type (v : json) : line_error :=
  error "string_type" "Input should be a valid string" v.
Definition int_type (v : json) : line_error :=
  error "int_type" "Input should be a valid integer" v.
Definition int_from_float (v : json) : line_error :=
  error "int_from_float"
    "Input should be a valid integer, got a number with a fractional part" v.
Definition finite_number (v : json) : line_error :=
  error "finite_number" "Input should be a finite number" v.
Definition int_parsing_size (v : json) : line_error :=
  error "int_parsing_size"
    "Unable to parse input string as an integer, exceeded maximum size" v.
Definition list_type (v : json) : line_error :=
  error "list_type" "Input should be a valid list" v.
Definition model_type (cls : string) (v : json) : line_error :=
  {| err_type := "model_type"; err_loc := [];
     err_msg := ("Input should be a valid dictionary or instance of " ++ cls)%string;
     err_input := v;
     err_ctx := Some {["class_name" := JStr cls]} |}.
Definition missing (v : json) : line_error :=
  error "missing" "Field required" v.

(** Modelled from the spec: the validation engine behind
    [ExtractionOutput.model_validate] and [model_dump] is the [BaseModel]
    of the pydantic library, which is not in src/; the definitions from
    here to [model_dump] follow section 4.1 of the specification on the
    fields schema.py declares, with pydantic's default (lax) conversions
    where the specification leaves the accepted inputs open.

    [str]: a string is accepted as it is, anything else is a type error. *)
Definition validate_str (v : json) : validation string :=
  match v with
  | JStr s => Valid s
  | _ => Invalid [string_type v]
  end.

(** [Optional[T]]: [None] is accepted, anything else goes to [T]. *)
Definition validate_optional {A} (inner : json → validation A) (v : json)
  : validation (option A) :=
  match v with
  | JNull => Valid None
  | _ => vmap Some (inner v)
  end.

(** [Optional[Any]]: every value is accepted as it is. *)
Definition validate_any (v : json) : validation json := Valid v.

(** The integer a float stands for: finite, without fractional part, and
    strictly between -2^63 and 2^63. *)
Definition float_as_int (f : spec_float) : validation Z :=
  let ranged (z : Z) : validation Z :=
    if ((- 2 ^ 63 <? z) && (z <? 2 ^ 63))%Z then Valid z
    else Invalid [int_parsing_size (JFloat f)] in
  match f with
  | S754_zero _ => Valid 0%Z
  | S754_infinity _ | S754_nan => Invalid [finite_number (JFloat f)]
  | S754_finite s m e =>
      let sgn (z : Z) : Z := if s then (- z)%Z else z in
      if (0 <=? e)%Z then ranged (sgn (Z.pos m * 2 ^ e)%Z)
      else if (Z.pos m mod 2 ^ (- e) =? 0)%Z
           then ranged (sgn (Z.pos m / 2 ^ (- e))%Z)
           else Invalid [int_from_float (JFloat f)]
  end.

(** [int], lax: an [int] as it is, a [bool] as 0 or 1, a float that is an
    integer as that integer. *)
Definition validate_int (v : json) : validation Z :=
  match v with
  | JInt z => Valid z
  | JBool b => Valid (if b then 1 else 0)%Z
  | JFloat f => float_as_int f
  | _ => Invalid [int_type v]
  end.

(** [Union[int, str]]: an [int] or a [str] is taken as it is; otherwise the
    members are tried in turn, and when none accepts the errors of each are
    reported under the member's name. *)
Definition validate_int_or_str (v : json) : validation (Z + string) :=
  match v with
  | JInt z => Valid (inl z)
  | JStr s => Valid (inr s)
  | _ =>
      match validate_int v with
      | Valid z => Valid (inl z)
      | Invalid e_int =>
          Invalid ((at_loc (LKey "int") <$> e_int)
                   ++ (at_loc (LKey "str") <$> errors_of (validate_str v)))
      end
  end.

(** A field with a default: the default when the key is absent, else the
    validated value, errors located at the field. *)
Definition field_default {A} (d : gmap string json) (name : string)
    (validator : json → validation A) (dflt : A) : validation A :=
  match d !! name with
  | None => Valid dflt
  | Some v => with_loc (LKey name) (validator v)
  end.

(** A required field: a [missing] error when the key is absent. *)
Definition field_required {A} (d : gmap string json) (name : string)
    (validator : json → validation A) : validation A :=
  match d !! name with
  | None => Invalid [at_loc (LKey name) (missing (JDict d))]
  | Some v => with_loc (LKey name) (validator v)
  end.

(** [extra="allow"]: the entries whose key is not a declared field. *)
Definition extra_of (fields : list string) (d : gmap string json)
  : gmap string json :=
  filter (λ kv, kv.1 ∉ fields) d.

(** One item after the other, each located at its index from [i] on. *)
Fixpoint validate_items {A} (validator : json → validation A) (i : nat)
    (l : list json) : validation (list A) :=
  match l with
  | [] => Valid []
  | x :: l' =>
      Valid cons <*> with_loc (LIndex i) (validator x)
                 <*> validate_items validator (S i) l'
  end.

(** [List[T]]: a list, every item validated. *)
Definition validate_list {A} (validator : json → validation A) (v : json)
  : validation (list A) :=
  match v with
  | JList l => validate_items validator 0 l
  | _ => Invalid [list_type v]
  end.

Definition validate_Paper (v : json) : validation Paper :=
  match v with
  | JDict d =>
      Valid Build_Paper
        <*> field_default d "doi" (validate_optional validate_str) None
        <*> field_default d "title" (validate_optional validate_str) None
        <*> field_default d "year" (validate_optional validate_int_or_str) None
        <*> Valid (extra_of Paper_fields d)
  | _ => Invalid [model_type "Paper" v]
  end.

Definition validate_Equation (v : json) : validation Equation :=
  match v with
  | JDict d =>
      Valid Build_Equation
        <*> field_default d "latex" (validate_optional validate_str) None
        <*> field_default d "model_performance" validate_any JNull
        <*> Valid (extra_of Equation_fields d)
  | _ => Invalid [model_type "Equation" v]
  end.

Definition validate_ExtractionMetadata (v : json) : validation ExtractionMetadata :=
  match v with
  | JDict d =>
      Valid Build_ExtractionMetadata
        <*> field_default d "task_id" (validate_optional validate_str) None
        <*> field_default d "input_doi" (validate_optional validate_str) None
        <*> field_default d "schema_name" (validate_optional validate_str) None
        <*> field_default d "schema_version" (validate_optional validate_str) None
        <*> Valid (extra_of ExtractionMetadata_fields d)
  | _ => Invalid [model_type "ExtractionMetadata" v]
  end.

(** Modelled from the spec: [ExtractionOutput.model_validate(v)], which
    schema.py inherits from pydantic's [BaseModel] (not in src/): the value
    must be a record holding [paper], [equations] and
    [extraction_metadata]; every declared field is validated and the errors
    of all of them are collected; the other entries are kept. *)
Definition model_validate (v : json) : validation ExtractionOutput :=
  match v with
  | JDict d =>
      Valid Build_ExtractionOutput
        <*> field_required d "paper" validate_Paper
        <*> field_required d "equations" (validate_list validate_Equation)
        <*> field_required d "extraction_metadata" validate_ExtractionMetadata
        <*> Valid (extra_of ExtractionOutput_fields d)
  | _ => Invalid [model_type "ExtractionOutput" v]
  end.

(** Serialisation of the validated fields. *)
Definition dump_str (o : option string) : json :=
  match o with
  | None => JNull
  | Some s => JStr s
  end.

Definition dump_int_or_str (o : option (Z + string)) : json :=
  match o with
  | None => JNull
  | Some (inl z) => JInt z
  | Some (inr s) => JStr s
  end.

(** The declared fields, then the extra ones. *)
Definition dump_Paper (p : Paper) : json :=
  JDict (<["doi" := dump_str (doi p)]>
        (<["title" := dump_str (title p)]>
        (<["year" := dump_int_or_str (year p)]> (Paper_extra p)))).

Definition dump_Equation (e : Equation) : json :=
  JDict (<["latex" := dump_str (latex e)]>
        (<["model_performance" := model_performance e]> (Equation_extra e))).

Definition dump_ExtractionMetadata (m : ExtractionMetadata) : json :=
  JDict (<["task_id" := dump_str (task_id m)]>
        (<["input_doi" := dump_str (input_doi m)]>
        (<["schema_name" := dump_str (schema_name m)]>
        (<["schema_version" := dump_str (schema_version m)]>
           (ExtractionMetadata_extra m))))).

(** Modelled from the spec: [validated.model_dump()], inherited from
    pydantic's [BaseModel] (not in src/): the normalized record, declared
    fields with their defaults applied and the extra fields retained. *)
Definition model_dump (o : ExtractionOutput) : json :=
  JDict (<["paper" := dump_Paper (paper o)]>
        (<["equations" := JList (dump_Equation <$> equations o)]>
        (<["extraction_metadata" := dump_ExtractionMetadata (extraction_metadata o)]>
           (ExtractionOutput_extra o)))).

(** Modelled from the spec: the release of the pydantic library the
    application runs on, which is not in src/ and which the repository
    does not pin.  It shows in the [url] of an error entry only, and no
    statement of this development depends on its value. *)
Definition pydantic_release : string := "2.12".

(** Modelled from the spec: the documentation link of a kind of error. *)
Definition errors_url (type : string) : string :=
  ("https://errors.pydantic.dev/" ++ pydantic_release ++ "/v/" ++ type)%string.

(** Modelled from the spec: one step of a location as it is placed in the
    response, a field or member name as a string, an index as a number. *)
Definition loc_json (i : loc_item) : json :=
  match i with
  | LKey k => JStr k
  | LIndex n => JInt (Z.of_nat n)
  end.

(** Modelled from the spec: one entry of [e.errors()] of pydantic's
    [ValidationError] (not in src/) as the value placed in the response:
    the field path [loc] and the message [msg] of the specification's
    field error, with the [type] of the error, the offending [input], the
    [ctx] when the error has one, and the [url] of its documentation. *)
Definition error_json (e : line_error) : json :=
  let rest : gmap string json :=
    <["url" := JStr (errors_url (err_type e))]> ∅ in
  let rest :=
    match err_ctx e with
    | Some ctx => <["ctx" := JDict ctx]> rest
    | None => rest
    end in
  JDict (<["type" := JStr (err_type e)]>
        (<["loc" := JList (loc_json <$> err_loc e)]>
        (<["msg" := JStr (err_msg e)]>
        (<["input" := err_input e]> rest)))).

(** Modelled from the spec: [e.errors()], one entry per error, in the
    validator's order. *)
Definition errors (e : list line_error) : json := JList (error_json <$> e).

(** ** JSON-RPC envelopes *)

Definition _jsonrpc_success (rpc_id result : json) : json :=
  JDict (<["jsonrpc" := JStr "2.0"]>
        (<["id" := rpc_id]>
        (<["result" := result]> ∅))).

Definition _jsonrpc_error (rpc_id : json) (code : Z) (message : string)
    (data : json) : json :=
  let err : gmap string json :=
    <["code" := JInt code]> (<["message" := JStr message]> ∅) in
  let err :=
    match data with
    | JNull => err
    | _ => <["data" := data]> err
    end in
  JDict (<["jsonrpc" := JStr "2.0"]>
        (<["id" := rpc_id]>
        (<["error" := JDict err]> ∅))).

(** ** The stub agent *)

Definition stub_notes : string :=
  "STUB: replace run_agent_fn with your extractor; latex/performance are required fields.".

Definition _run_agent_stub (text : string) (meta : gmap string json) : json :=
  JDict (<["paper" :=
            JDict (<["doi" := py_get meta "input_doi"]>
                  (<["title" := JNull]>
                  (<["year" := JNull]> ∅)))]>
        (<["equations" :=
            JList [JDict (<["latex" := JNull]>
                         (<["model_performance" := JNull]>
                         (<["notes" := JStr stub_notes]> ∅)))]]>
        (<["extraction_metadata" :=
            JDict (<["task_id" := py_get meta "task_id"]>
                  (<["input_doi" := py_get meta "input_doi"]>
                  (<["schema_name" := py_get meta "schema_name"]>
                  (<["schema_version" := py_get meta "schema_version"]> ∅))))]>
           ∅))).

(** ** The handler *)

(** [body.get(k, dflt)] on the request body, which need not be a [dict]. *)
Definition body_get (body : json) (k : string) (dflt : json) : M json :=
  match body with
  | JDict d => mret (py_get_default d k dflt)
  | _ => raise AttributeError
  end.

(** [x is None]. *)
Definition is_none (v : json) : bool :=
  match v with
  | JNull => true
  | _ => false
  end.

(** The call of the agent: the stub when none was injected. *)
Definition call_agent (run_agent_fn_local : option agent_fn) (text : string)
    (meta : gmap string json) : M json :=
  _ ← emit (EvAgent text meta);
  match run_agent_fn_local with
  | None => mret (_run_agent_stub text meta)
  | Some f => MkM [] (f text meta)
  end.

Definition missing_text_message : string :=
  "Missing input text in params (expected input.text or input_text).".

Definition schema_mismatch_message : string :=
  "White agent returned JSON that does not match required schema (paper/equations/extraction_metadata).".

(** [_handle_single_jsonrpc(body, run_agent_fn_local)]; the result [JNull]
    is Python's [None], no response. *)
Definition _handle_single_jsonrpc (body : json)
    (run_agent_fn_local : option agent_fn) : M json :=
  rpc_id ← body_get body "id" JNull;
  method ← body_get body "method" (JStr "");
  params ← body_get body "params" (JDict ∅);
  id_again ← body_get body "id" JNull;
  if is_none rpc_id && is_none id_again then mret JNull
  else
    _ ← emit (EvExtract params);
    let '(text, meta) := _extract_input_from_jsonrpc params in
    let missing_text :=
      mret (_jsonrpc_error rpc_id (-32602) missing_text_message
              (JDict {["method" := method]})) in
    match text with
    | None => missing_text
    | Some text =>
        if negb (truthy (JStr text)) then missing_text
        else
          output_dict ← call_agent run_agent_fn_local text meta;
          _ ← emit (EvValidate output_dict);
          match model_validate output_dict with
          | Invalid e =>
              mret (_jsonrpc_error rpc_id (-32000) schema_mismatch_message
                      (JDict {["validation_errors" := errors e]}))
          | Valid validated =>
              mret (_jsonrpc_success rpc_id (model_dump validated))
          end
    end.

(** The loop of the batch branch: [responses] grows by every result that
    is not [None]; an exception ends the loop. *)
Fixpoint batch_loop (payload : list json) (run_agent_fn : option agent_fn)
    (responses : list json) : M (list json) :=
  match payload with
  | [] => mret responses
  | item :: rest =>
      resp ← _handle_single_jsonrpc item run_agent_fn;
      batch_loop rest run_agent_fn
        (if is_none resp then responses else responses ++ [resp])
  end.

(** [jsonrpc_root], from the parsed payload on. *)
Definition jsonrpc_root (payload : json) (run_agent_fn : option agent_fn)
  : M json :=
  match payload with
  | JList items =>
      responses ← batch_loop items run_agent_fn [];
      mret (JList responses)
  | _ => _handle_single_jsonrpc payload run_agent_fn
  end.

(** ** The remaining functions of a2a_server.py *)

(** [_first_nonempty], on arguments of the declared type
    [Optional[str]], for which [str(v)] is [v]. *)
Fixpoint _first_nonempty (vals : list (option string)) : option string :=
  match vals with
  | [] => None
  | v :: vals' =>
      match v with
      | Some s =>
          if negb (String.eqb (py_strip s) "") then Some s
          else _first_nonempty vals'
      | None => _first_nonempty vals'
      end
  end.

(** [build_agent_card(name=..., description=..., base_url=..., version=...,
    protocol_version=..., streaming=...)]. *)
Definition build_agent_card (name description base_url version
    protocol_version : string) (streaming : bool) : json :=
  JDict (<["name" := JStr name]>
        (<["description" := JStr description]>
        (<["url" := JStr base_url]>
        (<["version" := JStr version]>
        (<["protocolVersion" := JStr protocol_version]>
        (<["capabilities" := JDict {["streaming" := JBool streaming]}]>
        (<["defaultInputModes" :=
            JList [JStr "text"; JStr "text/plain"; JStr "application/json"]]>
        (<["defaultOutputModes" := JList [JStr "application/json"]]>
        (<["skills" :=
            JList [JDict
              (<["id" := JStr "extract_dairy_math_models"]>
              (<["name" := JStr "Dairy math model extraction"]>
              (<["description" :=
                  JStr "Extract equations/models from dairy science paper text into structured JSON."]>
              (<["examples" :=
                  JList [JStr "Extract the regression equations and reported metrics from this Methods section."]]>
              (<["tags" :=
                  JList [JStr "dairy"; JStr "equations"; JStr "latex";
                         JStr "benchmark"]]> ∅)))))]]>
        (<["endpoints" :=
            JDict (<["jsonrpc" := JStr (base_url ++ "/")%string]>
                  (<["card" := JStr (base_url ++ "/.well-known/agent-card.json")%string]>
                  (<["agent" := JStr (base_url ++ "/.well-known/agent.json")%string]>
                  (<["health" := JStr (base_url ++ "/health")%string]> ∅))))]>
           ∅)))))))))).

(** The defaults of the keyword arguments. *)
Definition default_version : string := "1.0.0".
Definition default_protocol_version : string := "0.2.6".
Definition default_agent_name : string := "DairyMathExtractor".
Definition default_agent_description : string :=
  "Extracts mathematical models from dairy science papers into structured JSON.".

(** The application [create_app] returns: the handlers it registers, one
    per route, closed over the card and the agent function. *)
Record App := {
  agent_card_json : json;      (* GET /.well-known/agent-card.json *)
  agent_json : json;           (* GET /.well-known/agent.json *)
  health : json;               (* GET /health *)
  post_root : json → M json    (* POST / *)
}.

(** [create_app(base_url=..., agent_name=..., agent_description=...,
    run_agent_fn=...)]. *)
Definition create_app (base_url agent_name agent_description : string)
    (run_agent_fn : option agent_fn) : App :=
  let agent_card :=
    build_agent_card agent_name agent_description base_url
      default_version default_protocol_version false in
  {| agent_card_json := agent_card;
     agent_json := agent_card;
     health := JDict {["ok" := JBool true]};
     post_root := λ payload, jsonrpc_root payload run_agent_fn |}.

(** ** run_a2a.py *)

(** [run_agent_placeholder(text, meta)]: returns [None]. *)
Definition run_agent_placeholder : agent_fn := λ text meta, Ok JNull.

(** The parsed command line of [main]. *)
Record Args := {
  host : string;
  port : Z;
  card_url : option string;
  use_placeholder_agent : bool
}.

(** [args.card_url or f"http://{args.host}:{args.port}"]. *)
Definition main_base_url (args : Args) : string :=
  match card_url args with
  | Some url => if truthy (JStr url) then url
                else ("http://" ++ host args ++ ":" ++ pretty (port args))%string
  | None => ("http://" ++ host args ++ ":" ++ pretty (port args))%string
  end.

(** The application [main] hands to the server. *)
Definition main_app (args : Args) : App :=
  let base_url := main_base_url args in
  if use_placeholder_agent args
  then create_app base_url default_agent_name default_agent_description None
  else create_app base_url default_agent_name default_agent_description
         (Some run_agent_placeholder).

(** ** Vocabulary of the statements *)

(** [params[k]] is a string that is not blank. *)
Definition usable (params : gmap string json) (k s : string) : Prop :=
  params !! k = Some (JStr s) ∧ nonblank s.

(** [params] has an [input] record with a [text] that is a string and not
    blank. *)
Definition has_input_text (params : gmap string json) : Prop :=
  ∃ i t, params !! "input" = Some (JDict i) ∧ usable i "text" t.

(** A request body without [id], or with [id] null. *)
Definition notification (body : gmap string json) : Prop :=
  body !! "id" = None ∨ body !! "id" = Some JNull.

(** A payload item that is a JSON object. *)
Definition request_object (item : json) : Prop := ∃ body, item = JDict body.

(** An agent that returns a value on every input (the stub always does). *)
Definition never_raises (run_agent_fn : option agent_fn) : Prop :=
  ∀ f, run_agent_fn = Some f → ∀ text meta, ∃ v, f text meta = Ok v.

(** What the call of the agent gives: the stub's value when no function
    was injected. *)
Definition agent_result (run_agent_fn : option agent_fn) (text : string)
    (meta : gmap string json) : result json :=
  match run_agent_fn with
  | None => Ok (_run_agent_stub text meta)
  | Some f => f text meta
  end.

(** The value a computation returned, [None] if it raised. *)
Definition returned (m : M json) : json :=
  match outcome m with
  | Ok v => v
  | Raise _ => JNull
  end.

(** The responses of a batch: the results that are not [None], in order. *)
Definition responses_of (results : list json) : list json :=
  filter (λ r, is_none r = false) results.

(** The four steps in which the extractor fills [meta], one per source of
    metadata; [extract_meta_steps] shows that the extractor composes them. *)
Definition meta_task_id (params meta : gmap string json) : gmap string json :=
  if py_in "task_id" params
  then <["task_id" := py_get params "task_id"]> meta else meta.

Definition meta_schema (params meta : gmap string json) : gmap string json :=
  match params !! "schema" with
  | Some (JDict schema) =>
      <["schema_version" := py_get schema "version"]>
        (<["schema_name" := py_get schema "name"]> meta)
  | _ => meta
  end.

Definition meta_paper (params meta : gmap string json) : gmap string json :=
  match params !! "paper" with
  | Some (JDict paper) =>
      <["input_doi" := py_or (py_get paper "doi") (py_get meta "input_doi")]> meta
  | _ => meta
  end.

Definition meta_input (params meta : gmap string json) : gmap string json :=
  match params !! "input" with
  | Some (JDict i) =>
      if truthy (JDict i)
      then <["content_type" := py_get i "content_type"]>
             (<["chunk_id" := py_get i "chunk_id"]> meta)
      else meta
  | _ => meta
  end.

(** An extra-field bag that holds none of the declared [fields]. *)
Definition clean (fields : list string) (extra : gmap string json) : Prop :=
  ∀ k, k ∈ fields → extra !! k = None.

(** A validated output whose four extra-field bags are clean. *)
Definition normalized (o : ExtractionOutput) : Prop :=
  clean ExtractionOutput_fields (ExtractionOutput_extra o)
  ∧ clean Paper_fields (Paper_extra (paper o))
  ∧ Forall (λ e, clean Equation_fields (Equation_extra e)) (equations o)
  ∧ clean ExtractionMetadata_fields
      (ExtractionMetadata_extra (extraction_metadata o)).

(** The shapes of section 3 of the specification: what the declared
    fields may hold when they are present; nothing is said of other keys. *)
Definition optional_string (v : json) : Prop :=
  v = JNull ∨ ∃ s, v = JStr s.

Definition optional_int_or_string (v : json) : Prop :=
  v = JNull ∨ (∃ z, v = JInt z) ∨ ∃ s, v = JStr s.

Definition field_is (P : json → Prop) (d : gmap string json) (k : string)
  : Prop :=
  ∀ v, d !! k = Some v → P v.

Definition Paper_shaped (d : gmap string json) : Prop :=
  field_is optional_string d "doi"
  ∧ field_is optional_string d "title"
  ∧ field_is optional_int_or_string d "year".

Definition Equation_shaped (v : json) : Prop :=
  ∃ d, v = JDict d ∧ field_is optional_string d "latex".

Definition ExtractionMetadata_shaped (d : gmap string json) : Prop :=
  field_is optional_string d "task_id"
  ∧ field_is optional_string d "input_doi"
  ∧ field_is optional_string d "schema_name"
  ∧ field_is optional_string d "schema_version".

(** [d] is an AgentOutput whose [paper], [equations] and
    [extraction_metadata] are [pd], [l] and [md]. *)
Definition AgentOutput_shaped (d pd : gmap string json) (l : list json)
    (md : gmap string json) : Prop :=
  d !! "paper" = Some (JDict pd) ∧ Paper_shaped pd
  ∧ d !! "equations" = Some (JList l) ∧ Forall Equation_shaped l
  ∧ d !! "extraction_metadata" = Some (JDict md)
  ∧ ExtractionMetadata_shaped md.

(** The field-level violations of the schema, each with the path of the
    offending field: a record that is no record, a required field that is
    missing, a present field of the wrong type. *)
Inductive Paper_violation : json → list loc_item → Prop :=
| Paper_not_record v :
    (∀ d, v ≠ JDict d) → Paper_violation v []
| Paper_bad_string d k v :
    k ∈ ["doi"; "title"] → d !! k = Some v → ¬ optional_string v →
    Paper_violation (JDict d) [LKey k]
| Paper_bad_year d v :
    d !! "year" = Some v → ¬ optional_int_or_string v →
    (∀ z, validate_int v ≠ Valid z) →
    Paper_violation (JDict d) [LKey "year"].

Inductive Equation_violation : json → list loc_item → Prop :=
| Equation_not_record v :
    (∀ d, v ≠ JDict d) → Equation_violation v []
| Equation_bad_latex d v :
    d !! "latex" = Some v → ¬ optional_string v →
    Equation_violation (JDict d) [LKey "latex"].

Inductive ExtractionMetadata_violation : json → list loc_item → Prop :=
| ExtractionMetadata_not_record v :
    (∀ d, v ≠ JDict d) → ExtractionMetadata_violation v []
| ExtractionMetadata_bad_string d k v :
    k ∈ ExtractionMetadata_fields → d !! k = Some v → ¬ optional_string v →
    ExtractionMetadata_violation (JDict d) [LKey k].

Inductive violation : json → list loc_item → Prop :=
| Output_not_record v :
    (∀ d, v ≠ JDict d) → violation v []
| Output_missing d k :
    k ∈ ExtractionOutput_fields → d !! k = None →
    violation (JDict d) [LKey k]
| Output_paper d v path :
    d !! "paper" = Some v → Paper_violation v path →
    violation (JDict d) (LKey "paper" :: path)
| Output_equations_not_list d v :
    d !! "equations" = Some v → (∀ l, v ≠ JList l) →
    violation (JDict d) [LKey "equations"]
| Output_equation d l i x path :
    d !! "equations" = Some (JList l) → l !! i = Some x →
    Equation_violation x path →
    violation (JDict d) (LKey "equations" :: LIndex i :: path)
| Output_metadata d v path :
    d !! "extraction_metadata" = Some v →
    ExtractionMetadata_violation v path →
    violation (JDict d) (LKey "extraction_metadata" :: path).

(** [errs] reports [path]: one of its entries is located at or below it. *)
Definition reported (errs : list line_error) (path : list loc_item) : Prop :=
  ∃ e, e ∈ errs ∧ path `prefix_of` err_loc e.

(** A validation result that, when it is a failure, names an error. *)
Definition proper {A} (x : validation A) : Prop := x ≠ Invalid [].

(** The keys of [params] the extractor reads for the metadata, and for the
    text. *)
Definition meta_sources : list string := ["task_id"; "schema"; "paper"; "input"].
Definition text_sources : list string :=
  ["input"; "input_text"; "text"; "chunk_text"; "content"].

(** The keys of a request body the handler reads. *)
Definition body_sources : list string := ["id"; "method"; "params"].

(** The number of calls of the agent in a trace. *)
Definition is_agent_call (ev : event) : bool :=
  match ev with
  | EvAgent _ _ => true
  | _ => false
  end.

Definition agent_calls (t : list event) : nat :=
  length (filter (λ ev, is_agent_call ev = true) t).

(** A validation that succeeded. *)
Definition is_valid {A} (x : validation A) : Prop := ∃ a, x = Valid a.

(** A payload item for which the handler owes a response: a request object
    whose [id] is present and not null. *)
Definition expects_response (item : json) : bool :=
  match item with
  | JDict body => negb (is_none (py_get body "id"))
  | _ => false
  end.

(** The routes [create_app] registers. *)
Definition routes : list string :=
  ["/"; "/.well-known/agent-card.json"; "/.well-known/agent.json"; "/health"].

(** A field path as a response shows it: names as strings, indices as
    numbers. *)
Definition path_json (path : list loc_item) : list json :=
  (λ i, match i with
        | LKey k => JStr k
        | LIndex n => JInt (Z.of_nat n)
        end) <$> path.

(** [entry] is an entry of [validation_errors] for the error [e]: a record
    with the field path of [e] under [loc], its message under [msg], its
    kind under [type] and the offending value under [input]. *)
Definition entry_of (e : line_error) (entry : json) : Prop :=
  ∃ d, entry = JDict d
       ∧ d !! "loc" = Some (JList (path_json (err_loc e)))
       ∧ d !! "msg" = Some (JStr (err_msg e))
       ∧ d !! "type" = Some (JStr (err_type e))
       ∧ d !! "input" = Some (err_input e).

(** ** The extractor *)

Lemma py_rstrip_empty (s : string) :
  py_rstrip s = "" ↔ ∀ c, In c (list_ascii_of_string s) → py_isspace c = true.
Proof.
  induction s as [|a s IH]; simpl.
  - split; [intros _ c [] | done].
  - destruct (py_rstrip s) eqn:E.
    + destruct (py_isspace a) eqn:Ea.
      * split; [|done]. intros _ c [<-|Hc]; [done|]. by apply IH.
      * split; [done|]. intros H. rewrite H in Ea; [done | by left].
    + split; [done|]. intros H.
      assert (String a0 s0 = "") as Hn; [|done].
      apply IH. intros c Hc. apply H. by right.
Qed.

Lemma py_lstrip_spaces (s : string) :
  (∀ c, In c (list_ascii_of_string (py_lstrip s)) → py_isspace c = true)
  ↔ (∀ c, In c (list_ascii_of_string s) → py_isspace c = true).
Proof.
  induction s as [|a s IH]; simpl; [done|].
  destruct (py_isspace a) eqn:Ea; [|done].
  rewrite IH. split.
  - intros H c [<-|Hc]; [done | by apply H].
  - intros H c Hc. apply H. by right.
Qed.

(** The test [text.strip()] of the source holds exactly for the strings
    that are not blank. *)
Lemma strip_truthy (s : string) :
  truthy (JStr (py_strip s)) = true ↔ nonblank s.
Proof.
  unfold py_strip, nonblank; simpl.
  rewrite negb_true_iff.
  destruct (String.eqb_spec (py_rstrip (py_lstrip s)) "") as [E|E].
  - split; [done|]. intros (c & Hc & Hs).
    pose proof (proj1 (py_rstrip_empty _) E) as E'.
    rewrite py_lstrip_spaces in E'. rewrite (E' c Hc) in Hs. done.
  - split; [intros _|done].
    destruct (decide (Exists (λ c, py_isspace c = false) (list_ascii_of_string s)))
      as [Hex|Hno].
    + apply Exists_exists in Hex as (c & Hc & Hs).
      exists c. split; [by apply list_elem_of_In | done].
    + exfalso. apply E, py_rstrip_empty, py_lstrip_spaces.
      intros c Hc. destruct (py_isspace c) eqn:Hs; [done|].
      exfalso. apply Hno, Exists_exists. exists c.
      split; [by apply list_elem_of_In | done].
Qed.

Lemma strip_falsy (s : string) :
  truthy (JStr (py_strip s)) = false ↔ ¬ nonblank s.
Proof.
  rewrite <- strip_truthy. destruct (truthy _); split; congruence.
Qed.

Lemma py_get_Some (d : gmap string json) (k : string) (v : json) :
  d !! k = Some v → py_get d k = v.
Proof. intros H. unfold py_get. by rewrite H. Qed.

Lemma py_get_None (d : gmap string json) (k : string) :
  d !! k = None → py_get d k = JNull.
Proof. intros H. unfold py_get. by rewrite H. Qed.

Lemma truthy_dict_lookup (d : gmap string json) (k : string) (v : json) :
  d !! k = Some v → truthy (JDict d) = true.
Proof.
  intros H. simpl. apply negb_true_iff, Nat.eqb_neq.
  intros Hs. apply map_size_empty_iff in Hs. subst d.
  by rewrite lookup_empty in H.
Qed.

(** What the loop over the direct fields returns: the value of the first
    key, in the order of the list, that holds a string that is not blank. *)
Lemma direct_fields_loop_Some (params : gmap string json) (ks : list string)
    (s : string) :
  direct_fields_loop params ks = Some s ↔
  ∃ pre k post, ks = pre ++ k :: post ∧ usable params k s
                ∧ ∀ k', k' ∈ pre → ∀ s', ¬ usable params k' s'.
Proof.
  induction ks as [|k ks IH]; cbn [direct_fields_loop].
  - split; [done|]. intros (pre & k & post & H & _). by destruct pre.
  - assert ((∀ s', ¬ usable params k s') →
      (direct_fields_loop params ks = Some s ↔
       ∃ pre k0 post, k :: ks = pre ++ k0 :: post ∧ usable params k0 s
         ∧ ∀ k', k' ∈ pre → ∀ s', ¬ usable params k' s')) as Hskip.
    { intros Hbad. rewrite IH. split.
      - intros (pre & k0 & post & -> & Hu & Hpre).
        exists (k :: pre), k0, post. split; [done|]. split; [done|].
        intros k' [->|Hin]%elem_of_cons; [apply Hbad | by apply Hpre].
      - intros (pre & k0 & post & Heq & Hu & Hpre).
        destruct pre as [|k1 pre]; simplify_eq/=.
        + exfalso. by eapply Hbad.
        + exists pre, k0, post. split; [done|]. split; [done|].
          intros k' Hin. apply Hpre. by right. }
    destruct (params !! k) as [v|] eqn:Hk.
    2: { rewrite (py_get_None _ _ Hk). apply Hskip.
         intros s' [Hl _]. congruence. }
    rewrite (py_get_Some _ _ _ Hk).
    destruct v as [| b | z | f | s0 | l | d];
      try (apply Hskip; intros s' [Hl _]; congruence).
    destruct (truthy (JStr (py_strip s0))) eqn:Ht.
    + apply strip_truthy in Ht. split.
      * intros [= ->]. exists [], k, ks. split; [done|]. split; [done|].
        intros k' Hin. by apply elem_of_nil in Hin.
      * intros (pre & k0 & post & Heq & [Hl Hn] & Hpre).
        destruct pre as [|k1 pre]; simplify_eq/=; [done|].
        exfalso. by eapply (Hpre k1); [left|].
    + apply strip_falsy in Ht.
      apply Hskip. intros s' [Hl Hn]. congruence.
Qed.

Lemma direct_fields_loop_None (params : gmap string json) (ks : list string) :
  direct_fields_loop params ks = None ↔
  ∀ k, k ∈ ks → ∀ s', ¬ usable params k s'.
Proof.
  induction ks as [|k ks IH]; cbn [direct_fields_loop].
  - split; [|done]. intros _ k Hk. by apply elem_of_nil in Hk.
  - assert ((∀ s', ¬ usable params k s') →
      (direct_fields_loop params ks = None ↔
       ∀ k0, k0 ∈ k :: ks → ∀ s', ¬ usable params k0 s')) as Hskip.
    { intros Hbad. rewrite IH. split.
      - intros H k0 [->|Hin]%elem_of_cons; [done | by apply H].
      - intros H k0 Hin. apply H. by right. }
    destruct (params !! k) as [v|] eqn:Hk.
    2: { rewrite (py_get_None _ _ Hk). apply Hskip.
         intros s' [Hl _]. congruence. }
    rewrite (py_get_Some _ _ _ Hk).
    destruct v as [| b | z | f | s | l | d];
      try (apply Hskip; intros s' [Hl _]; congruence).
    destruct (truthy (JStr (py_strip s))) eqn:Ht.
    + apply strip_truthy in Ht. split; [done|].
      intros H. exfalso. by eapply (H k); [left|].
    + apply strip_falsy in Ht. apply Hskip. intros s' [Hl Hn]. congruence.
Qed.

(** The text returned when [input.text] is usable, and when it is not. *)
Lemma extract_text_input (params i : gmap string json) (t : string) :
  params !! "input" = Some (JDict i) → usable i "text" t →
  (_extract_input_from_jsonrpc (JDict params)).1 = Some t.
Proof.
  intros Hi [Ht Hn]. unfold _extract_input_from_jsonrpc.
  rewrite (py_get_Some _ _ _ Hi), (truthy_dict_lookup _ _ _ Ht).
  rewrite (py_get_Some _ _ _ Ht).
  apply strip_truthy in Hn. rewrite Hn. reflexivity.
Qed.

Lemma extract_text_fallback (params : gmap string json) :
  ¬ has_input_text params →
  (_extract_input_from_jsonrpc (JDict params)).1
  = direct_fields_loop params direct_fields.
Proof.
  intros Hno. unfold _extract_input_from_jsonrpc.
  destruct (py_get params "input") as [| b | z | f | s | l | i] eqn:Hi;
    try done.
  destruct (truthy (JDict i)); [|done].
  destruct (py_get i "text") as [| b | z | f | t | l | d'] eqn:Ht; try done.
  destruct (truthy (JStr (py_strip t))) eqn:Hs; [|done].
  exfalso. apply Hno. exists i, t.
  unfold py_get in Hi, Ht.
  destruct (params !! "input") as [x|] eqn:Ex; [|done].
  destruct (i !! "text") as [y|] eqn:Ey; [|done].
  simpl in Hi, Ht. subst x y. split; [done|]. split; [done|].
  by apply strip_truthy.
Qed.

(** The metadata is gathered in four independent steps, whatever text is
    found. *)
Lemma extract_meta_steps (params : gmap string json) :
  (_extract_input_from_jsonrpc (JDict params)).2
  = meta_input params
      (meta_paper params (meta_schema params (meta_task_id params ∅))).
Proof.
  unfold _extract_input_from_jsonrpc, meta_input.
  fold (meta_task_id params ∅).
  fold (meta_schema params (meta_task_id params ∅)).
  set (m2 := meta_schema params (meta_task_id params ∅)).
  assert (match py_get params "paper" with
          | JDict paper0 =>
              <["input_doi" := py_or (py_get paper0 "doi") (py_get m2 "input_doi")]> m2
          | _ => m2
          end = meta_paper params m2) as ->.
  { unfold meta_paper, py_get at 1.
    by destruct (params !! "paper") as [[]|]. }
  set (m3 := meta_paper params m2).
  destruct (params !! "input") as [v|] eqn:Hi;
    [rewrite (py_get_Some _ _ _ Hi) | by rewrite (py_get_None _ _ Hi)].
  destruct v as [| b | z | f | s | l | i]; try done.
  destruct (truthy (JDict i)); [|done].
  destruct (py_get i "text") as [| b | z | f | t | l | d']; try done.
  by destruct (truthy (JStr (py_strip t))).
Qed.

(** Each step leaves the keys of the other steps alone. *)
Lemma meta_task_id_other (params meta : gmap string json) (k : string) :
  k ≠ "task_id" → meta_task_id params meta !! k = meta !! k.
Proof.
  intros Hk. unfold meta_task_id.
  destruct (py_in "task_id" params); [|done]. by rewrite lookup_insert_ne.
Qed.

Lemma meta_schema_other (params meta : gmap string json) (k : string) :
  k ≠ "schema_name" → k ≠ "schema_version" →
  meta_schema params meta !! k = meta !! k.
Proof.
  intros Hn Hv. unfold meta_schema.
  destruct (params !! "schema") as [[]|]; try done.
  by rewrite !lookup_insert_ne.
Qed.

Lemma meta_paper_other (params meta : gmap string json) (k : string) :
  k ≠ "input_doi" → meta_paper params meta !! k = meta !! k.
Proof.
  intros Hk. unfold meta_paper.
  destruct (params !! "paper") as [[]|]; try done.
  by rewrite lookup_insert_ne.
Qed.

Lemma meta_input_other (params meta : gmap string json) (k : string) :
  k ≠ "chunk_id" → k ≠ "content_type" →
  meta_input params meta !! k = meta !! k.
Proof.
  intros Hc Ht. unfold meta_input.
  destruct (params !! "input") as [[| | | | | |i]|]; try done.
  destruct (truthy (JDict i)); [|done].
  by rewrite !lookup_insert_ne.
Qed.

(** Each step writes keys of [meta_keys] only. *)
Lemma meta_steps_dom (params meta : gmap string json) :
  dom meta ⊆ meta_keys →
  dom (meta_task_id params meta) ⊆ meta_keys
  ∧ dom (meta_schema params meta) ⊆ meta_keys
  ∧ dom (meta_paper params meta) ⊆ meta_keys
  ∧ dom (meta_input params meta) ⊆ meta_keys.
Proof.
  intros Hm. unfold meta_task_id, meta_schema, meta_paper, meta_input.
  repeat split.
  - destruct (py_in "task_id" params); [|done].
    rewrite dom_insert. unfold meta_keys in *. set_solver.
  - destruct (params !! "schema") as [[]|]; try done.
    rewrite !dom_insert. unfold meta_keys in *. set_solver.
  - destruct (params !! "paper") as [[]|]; try done.
    rewrite dom_insert. unfold meta_keys in *. set_solver.
  - destruct (params !! "input") as [[| | | | | |i]|]; try done.
    destruct (truthy (JDict i)); [|done].
    rewrite !dom_insert. unfold meta_keys in *. set_solver.
Qed.

(** C10: whatever [params] is, a record or not, every key of the [meta]
    the extractor returns is one of [task_id], [schema_name],
    [schema_version], [input_doi], [chunk_id], [content_type]. *)
Theorem extract_meta_keys (params : json) :
  dom (_extract_input_from_jsonrpc params).2 ⊆ meta_keys.
Proof.
  destruct params as [| b | z | f | s | l | params];
    try (simpl; rewrite dom_empty; set_solver).
  rewrite extract_meta_steps.
  apply meta_steps_dom, meta_steps_dom, meta_steps_dom, meta_steps_dom.
  rewrite dom_empty. set_solver.
Qed.

(** C2, as the code has it: [meta] has [task_id] exactly when [params] has
    it; [schema_name] and [schema_version] are both present exactly when
    [params.schema] is a record, each holding the record's value or null
    when the record lacks it; [input_doi] is present exactly when
    [params.paper] is a record; [chunk_id] and [content_type] are both
    present exactly when [params.input] is a record that is not empty, each
    holding the record's value or null when the record lacks it. *)
Theorem extract_meta_entries (params : gmap string json) :
  let meta := (_extract_input_from_jsonrpc (JDict params)).2 in
  meta !! "task_id" = params !! "task_id"
  ∧ meta !! "schema_name" =
      match params !! "schema" with
      | Some (JDict schema) => Some (py_get schema "name")
      | _ => None
      end
  ∧ meta !! "schema_version" =
      match params !! "schema" with
      | Some (JDict schema) => Some (py_get schema "version")
      | _ => None
      end
  ∧ meta !! "input_doi" =
      match params !! "paper" with
      | Some (JDict paper) => Some (py_or (py_get paper "doi") JNull)
      | _ => None
      end
  ∧ meta !! "chunk_id" =
      match params !! "input" with
      | Some (JDict i) => if truthy (JDict i) then Some (py_get i "chunk_id") else None
      | _ => None
      end
  ∧ meta !! "content_type" =
      match params !! "input" with
      | Some (JDict i) => if truthy (JDict i) then Some (py_get i "content_type") else None
      | _ => None
      end.
Proof.
  intros meta. subst meta. rewrite extract_meta_steps.
  repeat split.
  - rewrite meta_input_other, meta_paper_other, meta_schema_other by done.
    unfold meta_task_id, py_in, py_get.
    destruct (params !! "task_id") as [v|]; simpl; [|done].
    by rewrite lookup_insert_eq.
  - rewrite meta_input_other, meta_paper_other by done.
    unfold meta_schema.
    destruct (params !! "schema") as [[]|];
      try by rewrite meta_task_id_other.
    rewrite lookup_insert_ne by done. by rewrite lookup_insert_eq.
  - rewrite meta_input_other, meta_paper_other by done.
    unfold meta_schema.
    destruct (params !! "schema") as [[]|];
      try by rewrite meta_task_id_other.
    by rewrite lookup_insert_eq.
  - rewrite meta_input_other by done.
    unfold meta_paper.
    destruct (params !! "paper") as [[]|];
      try by rewrite meta_schema_other, meta_task_id_other.
    rewrite lookup_insert_eq. do 2 f_equal. unfold py_get.
    by rewrite meta_schema_other, meta_task_id_other.
  - unfold meta_input.
    destruct (params !! "input") as [[| | | | | |i]|];
      try by rewrite meta_paper_other, meta_schema_other, meta_task_id_other.
    destruct (truthy (JDict i)).
    + rewrite lookup_insert_ne by done. by rewrite lookup_insert_eq.
    + by rewrite meta_paper_other, meta_schema_other, meta_task_id_other.
  - unfold meta_input.
    destruct (params !! "input") as [[| | | | | |i]|];
      try by rewrite meta_paper_other, meta_schema_other, meta_task_id_other.
    destruct (truthy (JDict i)).
    + by rewrite lookup_insert_eq.
    + by rewrite meta_paper_other, meta_schema_other, meta_task_id_other.
Qed.

(** C2, as stated, fails: a [schema] record without [name] gives [meta] a
    [schema_name] entry holding null, and an [input] record without
    [chunk_id] gives it a [chunk_id] entry holding null. *)
Lemma extract_meta_null_entry :
  let schema : gmap string json := {["version" := JStr "1"]} in
  let inp : gmap string json := {["text" := JStr "y = a + bx"]} in
  schema !! "name" = None
  ∧ (_extract_input_from_jsonrpc (JDict {["schema" := JDict schema]})).2
      !! "schema_name" = Some JNull
  ∧ inp !! "chunk_id" = None
  ∧ (_extract_input_from_jsonrpc (JDict {["input" := JDict inp]})).2
      !! "chunk_id" = Some JNull.
Proof. vm_compute. done. Qed.

(** C4: when [params] holds an [input] record whose [text] is a string that
    is not blank, the extractor returns exactly that string, whatever else
    [params] holds. *)
Theorem extract_input_text (params i : gmap string json) (t : string) :
  params !! "input" = Some (JDict i) →
  i !! "text" = Some (JStr t) →
  nonblank t →
  (_extract_input_from_jsonrpc (JDict params)).1 = Some t.
Proof.
  intros Hi Ht Hn. by apply (extract_text_input params i t).
Qed.

Lemma extract_input_text_witness :
  let i : gmap string json := {["text" := JStr "y = a + bx"]} in
  let params : gmap string json :=
    <["input" := JDict i]> (<["input_text" := JStr "other"]>
                           (<["task_id" := JInt 7]> ∅)) in
  (_extract_input_from_jsonrpc (JDict params)).1 = Some "y = a + bx".
Proof.
  intros i params. apply (extract_input_text params i "y = a + bx").
  - vm_compute. reflexivity.
  - vm_compute. reflexivity.
  - exists "y"%char. split; [simpl; auto | reflexivity].
Defined.

(** C5: when [params] has no usable [input.text], the text returned is the
    value of the first of [input_text], [text], [chunk_text], [content], in
    that order, that holds a string that is not blank, and no text when
    none does; so a usable [input_text] is returned whatever [text],
    [chunk_text] and [content] hold. *)
Theorem extract_fallback_order (params : gmap string json) :
  ¬ has_input_text params →
  let text := (_extract_input_from_jsonrpc (JDict params)).1 in
  (∀ s, text = Some s ↔
        ∃ pre k post,
          ["input_text"; "text"; "chunk_text"; "content"] = pre ++ k :: post
          ∧ usable params k s
          ∧ ∀ k', k' ∈ pre → ∀ s', ¬ usable params k' s')
  ∧ (text = None ↔
     ∀ k, k ∈ ["input_text"; "text"; "chunk_text"; "content"] →
          ∀ s', ¬ usable params k s')
  ∧ (∀ s, usable params "input_text" s → text = Some s).
Proof.
  intros Hno text. subst text. rewrite (extract_text_fallback _ Hno).
  split; [|split].
  - intros s. apply direct_fields_loop_Some.
  - apply direct_fields_loop_None.
  - intros s Hu. apply direct_fields_loop_Some.
    exists [], "input_text", ["text"; "chunk_text"; "content"].
    split; [done|]. split; [done|].
    intros k' Hin. by apply elem_of_nil in Hin.
Qed.

Lemma extract_fallback_order_witness :
  let params : gmap string json :=
    <["input_text" := JStr "from input_text"]>
      (<["text" := JStr "from text"]> (<["content" := JStr " "]> ∅)) in
  (_extract_input_from_jsonrpc (JDict params)).1 = Some "from input_text".
Proof.
  intros params.
  apply (extract_fallback_order params).
  - intros (i & t & Hi & _). vm_compute in Hi. discriminate.
  - split; [vm_compute; reflexivity|].
    exists "f"%char. split; [simpl; auto | reflexivity].
Defined.

(** ** The handler *)

(** The text of the extractor, by cases on [params.input]. *)
Lemma extract_text_cases (params : gmap string json) :
  (_extract_input_from_jsonrpc (JDict params)).1 =
  match params !! "input" with
  | Some (JDict i) =>
      match i !! "text" with
      | Some (JStr t) =>
          if truthy (JStr (py_strip t)) then Some t
          else direct_fields_loop params direct_fields
      | _ => direct_fields_loop params direct_fields
      end
  | _ => direct_fields_loop params direct_fields
  end.
Proof.
  unfold _extract_input_from_jsonrpc.
  destruct (params !! "input") as [v|] eqn:Hi;
    [rewrite (py_get_Some _ _ _ Hi) | by rewrite (py_get_None _ _ Hi)].
  destruct v as [| b | z | f | s | l | i]; try done.
  destruct (i !! "text") as [x|] eqn:Ht.
  - rewrite (truthy_dict_lookup _ _ _ Ht), (py_get_Some _ _ _ Ht).
    destruct x as [| b | z | f | t | l | d']; try done.
    by destruct (truthy (JStr (py_strip t))).
  - rewrite (py_get_None _ _ Ht). by destruct (truthy (JDict i)).
Qed.

(** A text the extractor returns is never blank, so never empty. *)
Lemma extract_text_nonblank (params : json) (t : string) :
  (_extract_input_from_jsonrpc params).1 = Some t → nonblank t.
Proof.
  destruct params as [| b | z | f | s | l | params]; try done.
  rewrite extract_text_cases.
  assert (direct_fields_loop params direct_fields = Some t → nonblank t)
    as Hloop.
  { intros (pre & k & post & _ & [_ Hn] & _)%direct_fields_loop_Some. done. }
  destruct (params !! "input") as [[| b | z | f | s | l | i]|]; try done.
  destruct (i !! "text") as [[| b | z | f | t' | l | d']|]; try done.
  destruct (truthy (JStr (py_strip t'))) eqn:Hs; [|done].
  intros [= ->]. by apply strip_truthy.
Qed.

Lemma nonblank_truthy (t : string) : nonblank t → truthy (JStr t) = true.
Proof. intros (c & Hc & _). by destruct t. Qed.

(** The run of the handler on a request object, step by step. *)
Lemma handle_run (body : gmap string json) (run_agent_fn : option agent_fn) :
  _handle_single_jsonrpc (JDict body) run_agent_fn =
  let rpc_id := py_get body "id" in
  let method := py_get_default body "method" (JStr "") in
  let params := py_get_default body "params" (JDict ∅) in
  if is_none rpc_id then MkM [] (Ok JNull)
  else
    match _extract_input_from_jsonrpc params with
    | (None, _) =>
        MkM [EvExtract params]
            (Ok (_jsonrpc_error rpc_id (-32602) missing_text_message
                   (JDict {["method" := method]})))
    | (Some text, meta) =>
        match agent_result run_agent_fn text meta with
        | Raise e => MkM [EvExtract params; EvAgent text meta] (Raise e)
        | Ok output_dict =>
            MkM [EvExtract params; EvAgent text meta; EvValidate output_dict]
                (Ok match model_validate output_dict with
                    | Invalid e =>
                        _jsonrpc_error rpc_id (-32000) schema_mismatch_message
                          (JDict {["validation_errors" := errors e]})
                    | Valid validated =>
                        _jsonrpc_success rpc_id (model_dump validated)
                    end)
        end
    end.
Proof.
  unfold _handle_single_jsonrpc, body_get. cbn [mbind M_bind mret M_ret outcome trace].
  change (py_get_default body "id" JNull) with (py_get body "id").
  destruct (is_none (py_get body "id")) eqn:Hid; [done|]. cbn [andb].
  cbn [mbind M_bind mret M_ret outcome trace emit app].
  destruct (_extract_input_from_jsonrpc (py_get_default body "params" (JDict ∅)))
    as [[text|] meta] eqn:He; [|done].
  assert (truthy (JStr text) = true) as ->.
  { apply nonblank_truthy, (extract_text_nonblank (py_get_default body "params" (JDict ∅))).
    by rewrite He. }
  cbn [negb]. unfold call_agent, agent_result.
  cbn [mbind M_bind mret M_ret outcome trace emit app].
  destruct run_agent_fn as [f|]; cbn [outcome trace app].
  - destruct (f text meta) as [out|e]; cbn [outcome trace app];
      [|reflexivity].
    destruct (model_validate out); reflexivity.
  - cbn [mbind M_bind mret M_ret outcome trace emit app].
    destruct (model_validate (_run_agent_stub text meta)); reflexivity.
Qed.

Lemma notification_is_none (body : gmap string json) :
  notification body ↔ is_none (py_get body "id") = true.
Proof.
  unfold notification, py_get.
  destruct (body !! "id") as [[]|]; simpl; naive_solver.
Qed.

Lemma request_is_none (body : gmap string json) :
  ¬ notification body → is_none (py_get body "id") = false.
Proof.
  rewrite notification_is_none. by destruct (is_none _).
Qed.

Lemma request_id (body : gmap string json) :
  ¬ notification body → body !! "id" = Some (py_get body "id").
Proof.
  unfold notification, py_get. destruct (body !! "id"); naive_solver.
Qed.

Lemma handle_notification (body : gmap string json)
    (run_agent_fn : option agent_fn) :
  notification body →
  _handle_single_jsonrpc (JDict body) run_agent_fn = MkM [] (Ok JNull).
Proof.
  intros Hn%notification_is_none. rewrite handle_run. cbn zeta.
  by rewrite Hn.
Qed.

(** C6: on a request object whose [id] is absent or null the handler calls
    neither the extractor, nor the agent, nor the validator, and returns no
    response, whatever [params] holds and whatever the agent would do; a
    batch made of it yields no entry. *)
Theorem notification_silent (body : gmap string json)
    (run_agent_fn : option agent_fn) :
  notification body →
  _handle_single_jsonrpc (JDict body) run_agent_fn = MkM [] (Ok JNull)
  ∧ jsonrpc_root (JDict body) run_agent_fn = MkM [] (Ok JNull)
  ∧ jsonrpc_root (JList [JDict body]) run_agent_fn = MkM [] (Ok (JList [])).
Proof.
  intros Hn. pose proof (handle_notification body run_agent_fn Hn) as Hrun.
  split; [done|]. split; [done|].
  unfold jsonrpc_root. cbn [batch_loop]. rewrite Hrun. reflexivity.
Qed.

Lemma notification_silent_witness :
  let body : gmap string json :=
    <["method" := JStr "extract"]> (<["params" := JInt 3]> ∅) in
  let failing : agent_fn := λ _ _, Raise (AgentException "RuntimeError") in
  _handle_single_jsonrpc (JDict body) (Some failing) = MkM [] (Ok JNull).
Proof.
  intros body failing.
  apply (notification_silent body (Some failing)).
  left. vm_compute. reflexivity.
Defined.

(** C1, as the code has it: when the agent function raises on the text and
    metadata of a request that is no notification, the handler ends with
    that same exception right after the call, without validating anything
    and without a response, and so does the top-level entry point. *)
Theorem agent_exception_propagates (body : gmap string json) (f : agent_fn)
    (text : string) (meta : gmap string json) (e : exn) :
  ¬ notification body →
  _extract_input_from_jsonrpc (py_get_default body "params" (JDict ∅))
    = (Some text, meta) →
  f text meta = Raise e →
  let params := py_get_default body "params" (JDict ∅) in
  _handle_single_jsonrpc (JDict body) (Some f)
    = MkM [EvExtract params; EvAgent text meta] (Raise e)
  ∧ jsonrpc_root (JDict body) (Some f)
    = MkM [EvExtract params; EvAgent text meta] (Raise e).
Proof.
  intros Hreq Hex Hf params. subst params.
  assert (_handle_single_jsonrpc (JDict body) (Some f)
          = MkM [EvExtract (py_get_default body "params" (JDict ∅));
                 EvAgent text meta] (Raise e)) as Hrun.
  { rewrite handle_run. cbn zeta. rewrite (request_is_none _ Hreq).
    rewrite Hex. unfold agent_result. by rewrite Hf. }
  split; done.
Qed.

Lemma agent_exception_propagates_witness :
  let body : gmap string json :=
    <["id" := JInt 1]>
      (<["params" := JDict {["input_text" := JStr "y = a + bx"]}]> ∅) in
  let failing : agent_fn := λ _ _, Raise (AgentException "RuntimeError") in
  outcome (_handle_single_jsonrpc (JDict body) (Some failing))
  = Raise (AgentException "RuntimeError").
Proof.
  intros body failing.
  pose proof (agent_exception_propagates body failing "y = a + bx" ∅
                (AgentException "RuntimeError")) as H.
  destruct H as [-> _].
  - intros [Hn|Hn]; vm_compute in Hn; discriminate.
  - vm_compute. reflexivity.
  - reflexivity.
  - reflexivity.
Defined.

(** C1, as stated, fails: with an agent function that raises, a request
    carrying a text gets no JSON-RPC error response; the exception leaves
    the handler and the entry point. *)
Lemma agent_exception_escapes :
  let body : json :=
    JDict (<["jsonrpc" := JStr "2.0"]> (<["id" := JInt 1]>
          (<["method" := JStr "extract"]>
          (<["params" := JDict {["input" := JDict {["text" := JStr "y = a + bx"]}]}]>
             ∅)))) in
  let failing : agent_fn := λ _ _, Raise (AgentException "RuntimeError") in
  outcome (_handle_single_jsonrpc body (Some failing))
    = Raise (AgentException "RuntimeError")
  ∧ outcome (jsonrpc_root body (Some failing))
    = Raise (AgentException "RuntimeError")
  ∧ ¬ ∃ response, outcome (_handle_single_jsonrpc body (Some failing))
                  = Ok response.
Proof.
  vm_compute. split; [done|]. split; [done|]. intros [r Hr]. discriminate.
Qed.

(** ** Batches *)

(** With an agent that does not raise, a request object always gets a
    result; one that is no notification gets a response carrying its id. *)
Lemma handle_response (body : gmap string json)
    (run_agent_fn : option agent_fn) :
  never_raises run_agent_fn →
  ¬ notification body →
  ∃ resp, outcome (_handle_single_jsonrpc (JDict body) run_agent_fn)
          = Ok (JDict resp)
          ∧ resp !! "id" = body !! "id"
          ∧ resp !! "jsonrpc" = Some (JStr "2.0").
Proof.
  intros Hag Hreq. rewrite handle_run. cbn zeta.
  rewrite (request_is_none _ Hreq), (request_id _ Hreq).
  destruct (_extract_input_from_jsonrpc _) as [[text|] meta].
  - assert (∃ out, agent_result run_agent_fn text meta = Ok out) as [out ->].
    { unfold agent_result. destruct run_agent_fn as [f|]; [|by eexists].
      by apply Hag. }
    cbn [outcome]. destruct (model_validate out); by eexists.
  - by eexists.
Qed.

Lemma handle_returns (item : json) (run_agent_fn : option agent_fn) :
  never_raises run_agent_fn →
  request_object item →
  outcome (_handle_single_jsonrpc item run_agent_fn)
  = Ok (returned (_handle_single_jsonrpc item run_agent_fn)).
Proof.
  intros Hag [body ->]. unfold returned.
  destruct (is_none (py_get body "id")) eqn:Hid.
  - apply notification_is_none in Hid.
    by rewrite (handle_notification body run_agent_fn Hid).
  - assert (¬ notification body) as Hreq.
    { rewrite notification_is_none. by rewrite Hid. }
    by destruct (handle_response body run_agent_fn Hag Hreq) as (r & -> & _).
Qed.

(** The loop appends to [responses], in the order of the items, the
    results that are not [None]. *)
Lemma batch_loop_returns (items : list json) (run_agent_fn : option agent_fn)
    (responses : list json) :
  never_raises run_agent_fn →
  Forall request_object items →
  outcome (batch_loop items run_agent_fn responses)
  = Ok (responses ++ responses_of
          ((λ item, returned (_handle_single_jsonrpc item run_agent_fn))
             <$> items)).
Proof.
  intros Hag Hitems. revert responses.
  induction Hitems as [|item items Hitem _ IH]; intros responses.
  - cbn. by rewrite app_nil_r.
  - cbn [batch_loop]. unfold mbind, M_bind.
    rewrite (handle_returns item run_agent_fn Hag Hitem). cbn [outcome].
    rewrite IH. rewrite fmap_cons. unfold responses_of.
    destruct (is_none (returned (_handle_single_jsonrpc item run_agent_fn)))
      eqn:Hnone.
    + by rewrite filter_cons_False by (by rewrite Hnone).
    + rewrite filter_cons_True by done. by rewrite <- app_assoc.
Qed.

Lemma batch_loop_raises (pre post : list json) (bad : json)
    (run_agent_fn : option agent_fn) (e : exn) (responses : list json) :
  Forall (λ item, ∃ r, outcome (_handle_single_jsonrpc item run_agent_fn)
                       = Ok r) pre →
  outcome (_handle_single_jsonrpc bad run_agent_fn) = Raise e →
  outcome (batch_loop (pre ++ bad :: post) run_agent_fn responses) = Raise e
  ∧ trace (batch_loop (pre ++ bad :: post) run_agent_fn responses)
    = concat ((λ item, trace (_handle_single_jsonrpc item run_agent_fn))
                <$> pre)
      ++ trace (_handle_single_jsonrpc bad run_agent_fn).
Proof.
  intros Hpre Hbad. revert responses.
  induction Hpre as [|item pre [r Hr] _ IH]; intros responses.
  - cbn [app batch_loop fmap list_fmap concat]. unfold mbind, M_bind.
    by rewrite Hbad.
  - rewrite <- app_comm_cons. cbn [batch_loop]. unfold mbind, M_bind.
    rewrite Hr. cbn [outcome trace].
    destruct (IH (if is_none r then responses else responses ++ [r]))
      as [-> ->].
    split; [done|]. rewrite fmap_cons. cbn [concat]. by rewrite app_assoc.
Qed.

Lemma batch_loop_collects (items : list json)
    (run_agent_fn : option agent_fn) (responses : list json) :
  Forall (λ item, ∃ r, outcome (_handle_single_jsonrpc item run_agent_fn)
                       = Ok r) items →
  outcome (batch_loop items run_agent_fn responses)
  = Ok (responses ++ responses_of
          ((λ item, returned (_handle_single_jsonrpc item run_agent_fn))
             <$> items)).
Proof.
  intros Hitems. revert responses.
  induction Hitems as [|item items [r Hr] _ IH]; intros responses.
  - cbn. by rewrite app_nil_r.
  - cbn [batch_loop]. unfold mbind, M_bind. rewrite Hr. cbn [outcome].
    rewrite IH. rewrite fmap_cons. unfold responses_of, returned at 2.
    rewrite Hr. destruct (is_none r) eqn:Hnone.
    + by rewrite filter_cons_False by (by rewrite Hnone).
    + rewrite filter_cons_True by done. by rewrite <- app_assoc.
Qed.

(** C7, as the code has it: the items of a batch go through the
    single-item handler one after the other.  When the handler returns for
    every item, the entry point returns its results that are not [None],
    in the order of the items; when it raises for an item after items for
    which it returned, the entry point raises that exception and returns
    no list.  With an agent that does not raise, a notification placed
    before, between or after two requests that are no notifications leaves
    a response list of length two, the response to the first request
    followed by the response to the second. *)
Theorem batch_in_order (run_agent_fn : option agent_fn) (items : list json) :
  (Forall (λ item, ∃ r, outcome (_handle_single_jsonrpc item run_agent_fn)
                        = Ok r) items →
   outcome (jsonrpc_root (JList items) run_agent_fn)
   = Ok (JList (responses_of
           ((λ item, returned (_handle_single_jsonrpc item run_agent_fn))
              <$> items))))
  ∧ (∀ pre bad post e,
       items = pre ++ bad :: post →
       Forall (λ item, ∃ r, outcome (_handle_single_jsonrpc item run_agent_fn)
                            = Ok r) pre →
       outcome (_handle_single_jsonrpc bad run_agent_fn) = Raise e →
       outcome (jsonrpc_root (JList items) run_agent_fn) = Raise e)
  ∧ (never_raises run_agent_fn →
     ∀ r1 r2 n,
       ¬ notification r1 → ¬ notification r2 → notification n →
       items ∈ [[JDict n; JDict r1; JDict r2];
                [JDict r1; JDict n; JDict r2];
                [JDict r1; JDict r2; JDict n]] →
       ∃ a b,
         outcome (jsonrpc_root (JList items) run_agent_fn)
         = Ok (JList [JDict a; JDict b])
         ∧ JDict a = returned (_handle_single_jsonrpc (JDict r1) run_agent_fn)
         ∧ JDict b = returned (_handle_single_jsonrpc (JDict r2) run_agent_fn)
         ∧ a !! "id" = r1 !! "id"
         ∧ b !! "id" = r2 !! "id").
Proof.
  assert (Forall (λ item, ∃ r, outcome (_handle_single_jsonrpc item run_agent_fn)
                               = Ok r) items →
     outcome (jsonrpc_root (JList items) run_agent_fn)
     = Ok (JList (responses_of
             ((λ item, returned (_handle_single_jsonrpc item run_agent_fn))
                <$> items)))) as Hbatch.
  { intros Hitems. unfold jsonrpc_root, mbind, M_bind.
    by rewrite (batch_loop_collects items run_agent_fn [] Hitems). }
  split; [exact Hbatch|]. split.
  { intros pre bad post e -> Hpre Hbad. unfold jsonrpc_root, mbind, M_bind.
    by destruct (batch_loop_raises pre post bad run_agent_fn e [] Hpre Hbad)
      as [-> _]. }
  intros Hag r1 r2 n Hr1 Hr2 Hn Hin.
  destruct (handle_response r1 run_agent_fn Hag Hr1) as (a & Ha & Hida & _).
  destruct (handle_response r2 run_agent_fn Hag Hr2) as (b & Hb & Hidb & _).
  pose proof (handle_notification n run_agent_fn Hn) as Hsilent.
  assert (returned (_handle_single_jsonrpc (JDict r1) run_agent_fn) = JDict a)
    as Hra by (unfold returned; by rewrite Ha).
  assert (returned (_handle_single_jsonrpc (JDict r2) run_agent_fn) = JDict b)
    as Hrb by (unfold returned; by rewrite Hb).
  assert (returned (_handle_single_jsonrpc (JDict n) run_agent_fn) = JNull)
    as Hrn by (unfold returned; by rewrite Hsilent).
  exists a, b. split; [|done].
  rewrite Hbatch.
  - repeat (apply elem_of_cons in Hin as [->|Hin]);
      [| | | by apply elem_of_nil in Hin];
      rewrite !fmap_cons, fmap_nil, Hra, Hrb, Hrn; reflexivity.
  - repeat (apply elem_of_cons in Hin as [->|Hin]);
      [| | | by apply elem_of_nil in Hin];
      repeat constructor; eexists;
      first [exact Ha | exact Hb | by rewrite Hsilent].
Qed.

Lemma batch_in_order_witness :
  let r1 : gmap string json :=
    <["id" := JInt 1]> (<["params" := JDict {["input_text" := JStr "a = b"]}]> ∅) in
  let n : gmap string json :=
    {["params" := JDict {["input_text" := JStr "c = d"]}]} in
  let r2 : gmap string json := {["id" := JStr "two"]} in
  ∃ a b,
    outcome (jsonrpc_root (JList [JDict r1; JDict n; JDict r2]) None)
    = Ok (JList [JDict a; JDict b])
    ∧ a !! "id" = Some (JInt 1) ∧ b !! "id" = Some (JStr "two").
Proof.
  intros r1 n r2.
  assert (never_raises None) as Hstub by (intros f Hf; discriminate).
  destruct (batch_in_order None [JDict r1; JDict n; JDict r2])
    as (_ & _ & Hthree).
  destruct (Hthree Hstub r1 r2 n) as (a & b & Hout & _ & _ & Ha & Hb).
  - intros [H|H]; vm_compute in H; discriminate.
  - intros [H|H]; vm_compute in H; discriminate.
  - left. vm_compute. reflexivity.
  - apply elem_of_cons. right. apply elem_of_cons. by left.
  - exists a, b. split; [exact Hout|]. split; [exact Ha | exact Hb].
Defined.

(** C7, as stated, fails: the items of a batch are not processed
    independently.  The first request alone gets its response; in a batch
    with a second request on which the agent raises, the exception leaves
    the entry point and no response list is returned, the response to the
    first request included. *)
Lemma batch_not_independent :
  let agent : agent_fn := λ text meta,
    if String.eqb text "boom" then Raise (AgentException "RuntimeError")
    else Ok (_run_agent_stub text meta) in
  let first : json :=
    JDict (<["id" := JInt 1]>
          (<["params" := JDict {["input_text" := JStr "a = b"]}]> ∅)) in
  let second : json :=
    JDict (<["id" := JInt 2]>
          (<["params" := JDict {["input_text" := JStr "boom"]}]> ∅)) in
  (∃ resp, outcome (_handle_single_jsonrpc first (Some agent))
           = Ok (JDict resp)
           ∧ resp !! "id" = Some (JInt 1))
  ∧ outcome (jsonrpc_root (JList [first; second]) (Some agent))
    = Raise (AgentException "RuntimeError")
  ∧ ¬ ∃ responses, outcome (jsonrpc_root (JList [first; second]) (Some agent))
                   = Ok (JList responses).
Proof.
  intros agent first second. split; [|split].
  - eexists. split; vm_compute; reflexivity.
  - vm_compute. reflexivity.
  - intros [responses H]. vm_compute in H. discriminate.
Qed.

(** ** The schema validator *)

Lemma vap_Valid {A B} (f : validation (A → B)) (x : validation A) (b : B) :
  f <*> x = Valid b ↔ ∃ g a, f = Valid g ∧ x = Valid a ∧ b = g a.
Proof.
  destruct f as [g|e1], x as [a|e2]; simpl; split;
    try (intros [= <-]; by eauto); try done;
    intros (g' & a' & [= ?] & [= ?] & ->); by subst.
Qed.

(** Nothing is dropped when validated fields are combined. *)
Lemma errors_of_vap {A B} (f : validation (A → B)) (x : validation A) :
  errors_of (f <*> x) = errors_of f ++ errors_of x.
Proof.
  destruct f as [g|e1], x as [a|e2]; simpl; try done.
  by rewrite app_nil_r.
Qed.

Lemma errors_of_with_loc {A} (i : loc_item) (x : validation A) :
  errors_of (with_loc i x) = at_loc i <$> errors_of x.
Proof. by destruct x. Qed.

Lemma errors_of_vmap {A B} (f : A → B) (x : validation A) :
  errors_of (vmap f x) = errors_of x.
Proof. by destruct x. Qed.

Lemma with_loc_Valid {A} (i : loc_item) (x : validation A) (a : A) :
  with_loc i x = Valid a ↔ x = Valid a.
Proof. destruct x; simpl; naive_solver. Qed.

(** The extra fields are the entries outside the declared fields. *)
Lemma extra_of_lookup (fields : list string) (d : gmap string json)
    (k : string) :
  k ∉ fields → extra_of fields d !! k = d !! k.
Proof.
  intros Hk. unfold extra_of. rewrite map_lookup_filter.
  destruct (d !! k) as [v|]; simpl; [|done].
  by rewrite option_guard_True.
Qed.

Lemma extra_of_clean (fields : list string) (d : gmap string json) :
  clean fields (extra_of fields d).
Proof.
  intros k Hk. unfold extra_of. apply map_lookup_filter_None.
  right. intros v _ Hn. by apply Hn.
Qed.

Lemma extra_of_insert (fields : list string) (d : gmap string json)
    (k : string) (v : json) :
  k ∈ fields → extra_of fields (<[k := v]> d) = extra_of fields d.
Proof.
  intros Hk. apply map_eq. intros j.
  destruct (decide (j ∈ fields)) as [Hj|Hj].
  - by rewrite !extra_of_clean.
  - rewrite !extra_of_lookup by done.
    apply lookup_insert_ne. intros ->. done.
Qed.

Lemma extra_of_id (fields : list string) (extra : gmap string json) :
  clean fields extra → extra_of fields extra = extra.
Proof.
  intros Hc. apply map_eq. intros j.
  destruct (decide (j ∈ fields)) as [Hj|Hj].
  - by rewrite extra_of_clean, Hc.
  - by rewrite extra_of_lookup.
Qed.

(** A serialised optional field validates to the field itself. *)
Lemma validate_dump_str (o : option string) :
  validate_optional validate_str (dump_str o) = Valid o.
Proof. by destruct o. Qed.

Lemma validate_dump_int_or_str (o : option (Z + string)) :
  validate_optional validate_int_or_str (dump_int_or_str o) = Valid o.
Proof. by destruct o as [[]|]. Qed.

Ltac lookup_fields :=
  unfold field_default, field_required;
  repeat (rewrite lookup_insert_eq || rewrite lookup_insert_ne by done).

Ltac in_fields := repeat constructor.

(** From [Valid c <*> x1 <*> ... <*> xn = Valid r] to the validity of every
    [xi], with [r] replaced by [c a1 ... an]. *)
Ltac invert_valid H :=
  repeat (let g := fresh "g" in let x := fresh "x" in let Hx := fresh "Hx" in
          apply vap_Valid in H as (g & x & H & Hx & ->));
  injection H as <-.

Lemma validate_dump_Paper (p : Paper) :
  clean Paper_fields (Paper_extra p) →
  validate_Paper (dump_Paper p) = Valid p.
Proof.
  intros Hc. unfold validate_Paper, dump_Paper. lookup_fields.
  rewrite !validate_dump_str, validate_dump_int_or_str.
  rewrite !extra_of_insert by in_fields. rewrite (extra_of_id _ _ Hc).
  by destruct p.
Qed.

Lemma validate_dump_Equation (e : Equation) :
  clean Equation_fields (Equation_extra e) →
  validate_Equation (dump_Equation e) = Valid e.
Proof.
  intros Hc. unfold validate_Equation, dump_Equation. lookup_fields.
  rewrite validate_dump_str.
  rewrite !extra_of_insert by in_fields. rewrite (extra_of_id _ _ Hc).
  by destruct e.
Qed.

Lemma validate_dump_ExtractionMetadata (m : ExtractionMetadata) :
  clean ExtractionMetadata_fields (ExtractionMetadata_extra m) →
  validate_ExtractionMetadata (dump_ExtractionMetadata m) = Valid m.
Proof.
  intros Hc. unfold validate_ExtractionMetadata, dump_ExtractionMetadata.
  lookup_fields. rewrite !validate_dump_str.
  rewrite !extra_of_insert by in_fields. rewrite (extra_of_id _ _ Hc).
  by destruct m.
Qed.

Lemma validate_dump_equations (es : list Equation) (i : nat) :
  Forall (λ e, clean Equation_fields (Equation_extra e)) es →
  validate_items validate_Equation i (dump_Equation <$> es) = Valid es.
Proof.
  intros Hes. revert i. induction Hes as [|e es He _ IH]; intros i; [done|].
  rewrite fmap_cons. cbn [validate_items].
  by rewrite (validate_dump_Equation e He), IH.
Qed.

(** A normalized output validates to itself. *)
Lemma validate_dump (o : ExtractionOutput) :
  normalized o → model_validate (model_dump o) = Valid o.
Proof.
  intros (Htop & Hp & Hes & Hm). unfold model_validate, model_dump.
  lookup_fields.
  rewrite (validate_dump_Paper _ Hp), (validate_dump_ExtractionMetadata _ Hm).
  unfold validate_list. rewrite (validate_dump_equations _ 0 Hes).
  rewrite !extra_of_insert by in_fields. rewrite (extra_of_id _ _ Htop).
  by destruct o.
Qed.

(** What the validator accepts has clean extra-field bags. *)
Lemma validate_Paper_clean (v : json) (p : Paper) :
  validate_Paper v = Valid p → clean Paper_fields (Paper_extra p).
Proof.
  destruct v as [| | | | | |d]; try done. unfold validate_Paper.
  intros H. invert_valid H. cbn. injection Hx as <-. apply extra_of_clean.
Qed.

Lemma validate_Equation_clean (v : json) (e : Equation) :
  validate_Equation v = Valid e → clean Equation_fields (Equation_extra e).
Proof.
  destruct v as [| | | | | |d]; try done. unfold validate_Equation.
  intros H. invert_valid H. cbn. injection Hx as <-. apply extra_of_clean.
Qed.

Lemma validate_ExtractionMetadata_clean (v : json) (m : ExtractionMetadata) :
  validate_ExtractionMetadata v = Valid m →
  clean ExtractionMetadata_fields (ExtractionMetadata_extra m).
Proof.
  destruct v as [| | | | | |d]; try done. unfold validate_ExtractionMetadata.
  intros H. invert_valid H. cbn. injection Hx as <-. apply extra_of_clean.
Qed.

Lemma validate_items_clean (l : list json) (i : nat) (es : list Equation) :
  validate_items validate_Equation i l = Valid es →
  Forall (λ e, clean Equation_fields (Equation_extra e)) es.
Proof.
  revert i es. induction l as [|x l IH]; intros i es; cbn [validate_items].
  - intros [= <-]. constructor.
  - intros H. invert_valid H. apply with_loc_Valid in Hx0.
    constructor; [by eapply validate_Equation_clean | by eapply IH].
Qed.

Lemma model_validate_normalized (v : json) (o : ExtractionOutput) :
  model_validate v = Valid o → normalized o.
Proof.
  destruct v as [| | | | | |d]; try done. unfold model_validate.
  intros H. invert_valid H. injection Hx as <-.
  unfold field_required in Hx0, Hx1, Hx2.
  destruct (d !! "paper") as [vp|]; [|done].
  destruct (d !! "equations") as [ve|]; [|done].
  destruct (d !! "extraction_metadata") as [vm|]; [|done].
  apply with_loc_Valid in Hx0, Hx1, Hx2.
  repeat split; cbn.
  - apply extra_of_clean.
  - by eapply validate_Paper_clean.
  - destruct ve as [| | | | |l|]; try done. by eapply validate_items_clean.
  - by eapply validate_ExtractionMetadata_clean.
Qed.

(** C9: a value the validator has accepted and returned, serialised and
    validated a second time, is accepted and gives the identical value;
    the two serialisations are therefore the same. *)
Theorem validate_idempotent (v : json) (o : ExtractionOutput) :
  model_validate v = Valid o →
  model_validate (model_dump o) = Valid o.
Proof.
  intros H. by apply validate_dump, (model_validate_normalized v).
Qed.

Lemma validate_idempotent_witness :
  let v : json :=
    JDict (<["paper" := JDict {["year" := JBool true]}]>
          (<["equations" := JList [JDict {["notes" := JStr "n"]}]]>
          (<["extraction_metadata" := JDict ∅]>
          (<["run" := JInt 7]> ∅)))) in
  let o : ExtractionOutput :=
    {| paper := {| doi := None; title := None; year := Some (inl 1%Z);
                   Paper_extra := ∅ |};
       equations := [{| latex := None; model_performance := JNull;
                        Equation_extra := {["notes" := JStr "n"]} |}];
       extraction_metadata :=
         {| task_id := None; input_doi := None; schema_name := None;
            schema_version := None; ExtractionMetadata_extra := ∅ |};
       ExtractionOutput_extra := {["run" := JInt 7]} |} in
  model_validate v = Valid o ∧ model_validate (model_dump o) = Valid o.
Proof.
  intros v o.
  assert (model_validate v = Valid o) as H by (vm_compute; reflexivity).
  split; [exact H | exact (validate_idempotent v o H)].
Defined.

(** An optional string field of the right shape validates. *)
Lemma field_optional_string (d : gmap string json) (k : string) :
  field_is optional_string d k →
  ∃ o, field_default d k (validate_optional validate_str) None = Valid o.
Proof.
  intros H. unfold field_default.
  destruct (d !! k) as [v|] eqn:Hk; [|by eexists].
  destruct (H v Hk) as [->|[s ->]]; by eexists.
Qed.

Lemma field_optional_int_or_string (d : gmap string json) (k : string) :
  field_is optional_int_or_string d k →
  ∃ o, field_default d k (validate_optional validate_int_or_str) None = Valid o.
Proof.
  intros H. unfold field_default.
  destruct (d !! k) as [v|] eqn:Hk; [|by eexists].
  destruct (H v Hk) as [->|[[z ->]|[s ->]]]; by eexists.
Qed.

Lemma Paper_shaped_valid (d : gmap string json) :
  Paper_shaped d →
  ∃ p, validate_Paper (JDict d) = Valid p
       ∧ Paper_extra p = extra_of Paper_fields d.
Proof.
  intros (Hdoi & Htitle & Hyear). unfold validate_Paper.
  destruct (field_optional_string _ _ Hdoi) as [a ->].
  destruct (field_optional_string _ _ Htitle) as [b ->].
  destruct (field_optional_int_or_string _ _ Hyear) as [c ->].
  by eexists.
Qed.

Lemma Equation_shaped_valid (v : json) :
  Equation_shaped v →
  ∃ d e, v = JDict d ∧ validate_Equation v = Valid e
         ∧ Equation_extra e = extra_of Equation_fields d.
Proof.
  intros (d & -> & Hlatex). unfold validate_Equation.
  destruct (field_optional_string _ _ Hlatex) as [a ->].
  unfold field_default, validate_any.
  destruct (d !! "model_performance"); by eexists _, _.
Qed.

Lemma ExtractionMetadata_shaped_valid (d : gmap string json) :
  ExtractionMetadata_shaped d →
  ∃ m, validate_ExtractionMetadata (JDict d) = Valid m
       ∧ ExtractionMetadata_extra m = extra_of ExtractionMetadata_fields d.
Proof.
  intros (H1 & H2 & H3 & H4). unfold validate_ExtractionMetadata.
  destruct (field_optional_string _ _ H1) as [a ->].
  destruct (field_optional_string _ _ H2) as [b ->].
  destruct (field_optional_string _ _ H3) as [c ->].
  destruct (field_optional_string _ _ H4) as [e ->].
  by eexists.
Qed.

Lemma equations_shaped_valid (l : list json) (i : nat) :
  Forall Equation_shaped l →
  ∃ es, validate_items validate_Equation i l = Valid es
        ∧ Forall2 (λ x e, ∃ d, x = JDict d
                     ∧ Equation_extra e = extra_of Equation_fields d) l es.
Proof.
  intros Hl. revert i. induction Hl as [|x l Hx _ IH]; intros i.
  - exists []. split; [done | constructor].
  - destruct (Equation_shaped_valid x Hx) as (d & e & -> & He & Hextra).
    destruct (IH (S i)) as (es & Hes & Hall).
    exists (e :: es). cbn [validate_items]. rewrite He, Hes.
    split; [done|]. constructor; [by exists d | done].
Qed.

(** The serialised records hold their extra fields, and nothing else,
    outside the declared fields. *)
Lemma dump_Paper_extra (p : Paper) (pd : gmap string json) :
  dump_Paper p = JDict pd →
  ∀ k, k ∉ Paper_fields → pd !! k = Paper_extra p !! k.
Proof.
  intros [= <-] k Hk.
  rewrite !lookup_insert_ne; [done|..]; intros <-; apply Hk; in_fields.
Qed.

Lemma dump_Equation_extra (e : Equation) (ed : gmap string json) :
  dump_Equation e = JDict ed →
  ∀ k, k ∉ Equation_fields → ed !! k = Equation_extra e !! k.
Proof.
  intros [= <-] k Hk.
  rewrite !lookup_insert_ne; [done|..]; intros <-; apply Hk; in_fields.
Qed.

Lemma dump_ExtractionMetadata_extra (m : ExtractionMetadata)
    (md : gmap string json) :
  dump_ExtractionMetadata m = JDict md →
  ∀ k, k ∉ ExtractionMetadata_fields →
       md !! k = ExtractionMetadata_extra m !! k.
Proof.
  intros [= <-] k Hk.
  rewrite !lookup_insert_ne; [done|..]; intros <-; apply Hk; in_fields.
Qed.

(** C3: an AgentOutput-shaped value, whatever other fields it carries at
    the top level, in [paper], in any equation or in
    [extraction_metadata], is accepted by the validator, and the
    normalized output holds, at each of these levels and outside the
    declared fields, exactly the entries of the input with their values
    unchanged. *)
Theorem extra_fields_preserved (d pd : gmap string json) (l : list json)
    (md : gmap string json) :
  AgentOutput_shaped d pd l md →
  ∃ o out pd' l' md',
    model_validate (JDict d) = Valid o
    ∧ model_dump o = JDict out
    ∧ out !! "paper" = Some (JDict pd')
    ∧ out !! "equations" = Some (JList l')
    ∧ out !! "extraction_metadata" = Some (JDict md')
    ∧ (∀ k, k ∉ ExtractionOutput_fields → out !! k = d !! k)
    ∧ (∀ k, k ∉ Paper_fields → pd' !! k = pd !! k)
    ∧ Forall2 (λ x x', ∃ ed ed', x = JDict ed ∧ x' = JDict ed'
                 ∧ ∀ k, k ∉ Equation_fields → ed' !! k = ed !! k) l l'
    ∧ (∀ k, k ∉ ExtractionMetadata_fields → md' !! k = md !! k).
Proof.
  intros (Hp & Hps & He & Hes & Hm & Hms).
  destruct (Paper_shaped_valid pd Hps) as (p & Hvp & Hxp).
  destruct (equations_shaped_valid l 0 Hes) as (es & Hves & Hxes).
  destruct (ExtractionMetadata_shaped_valid md Hms) as (m & Hvm & Hxm).
  exists (Build_ExtractionOutput p es m (extra_of ExtractionOutput_fields d)).
  eexists _, _, _, _.
  split.
  { unfold model_validate, field_required. rewrite Hp, He, Hm.
    unfold validate_list. by rewrite Hvp, Hves, Hvm. }
  split; [reflexivity|]. cbn [paper equations extraction_metadata
                                ExtractionOutput_extra].
  split; [by rewrite lookup_insert_eq|].
  split; [rewrite lookup_insert_ne by done; by rewrite lookup_insert_eq|].
  split; [rewrite !lookup_insert_ne by done; by rewrite lookup_insert_eq|].
  split.
  { intros k Hk. rewrite !lookup_insert_ne.
    - by apply extra_of_lookup.
    - intros <-. apply Hk. in_fields.
    - intros <-. apply Hk. in_fields.
    - intros <-. apply Hk. in_fields. }
  split.
  { intros k Hk. rewrite (dump_Paper_extra p _ eq_refl k Hk), Hxp.
    by apply extra_of_lookup. }
  split.
  { clear Hves He Hes.
    induction Hxes as [|x e l es (ed & -> & Hx) _ IH].
    - constructor.
    - rewrite fmap_cons. constructor.
      + exists ed. eexists. split; [done|]. split; [reflexivity|].
        intros k Hk. rewrite (dump_Equation_extra e _ eq_refl k Hk), Hx.
        by apply extra_of_lookup.
      + apply IH. }
  intros k Hk. rewrite (dump_ExtractionMetadata_extra m _ eq_refl k Hk), Hxm.
  by apply extra_of_lookup.
Qed.

Lemma extra_fields_preserved_witness :
  let pd : gmap string json :=
    <["doi" := JStr "10.1/x"]> (<["journal" := JStr "JDS"]> ∅) in
  let ed : gmap string json :=
    <["latex" := JNull]> (<["notes" := JStr "n"]> ∅) in
  let md : gmap string json := {["model" := JStr "m"]} in
  let d : gmap string json :=
    <["paper" := JDict pd]> (<["equations" := JList [JDict ed]]>
    (<["extraction_metadata" := JDict md]> (<["run" := JInt 7]> ∅))) in
  ∃ o out pd' l' md',
    model_validate (JDict d) = Valid o
    ∧ model_dump o = JDict out
    ∧ out !! "paper" = Some (JDict pd')
    ∧ out !! "equations" = Some (JList l')
    ∧ out !! "extraction_metadata" = Some (JDict md')
    ∧ out !! "run" = Some (JInt 7)
    ∧ pd' !! "journal" = Some (JStr "JDS")
    ∧ md' !! "model" = Some (JStr "m").
Proof.
  intros pd ed md d.
  destruct (extra_fields_preserved d pd [JDict ed] md)
    as (o & out & pd' & l' & md' & Hv & Hd & Hp & He & Hm & Htop & Hpd & _ & Hmd).
  - split; [vm_compute; reflexivity|]. split.
    { repeat split; intros v Hv; vm_compute in Hv;
        first [discriminate | injection Hv as <-];
        right; by eexists. }
    split; [vm_compute; reflexivity|]. split.
    { constructor; [|constructor]. exists ed. split; [reflexivity|].
      intros v Hv. vm_compute in Hv. injection Hv as <-. by left. }
    split; [vm_compute; reflexivity|].
    repeat split; intros v Hv; vm_compute in Hv; discriminate.
  - exists o, out, pd', l', md'.
    split; [exact Hv|]. split; [exact Hd|]. split; [exact Hp|].
    split; [exact He|]. split; [exact Hm|].
    split; [|split].
    + rewrite Htop; [vm_compute; reflexivity|].
      eapply bool_decide_unpack. vm_compute. exact I.
    + rewrite Hpd; [vm_compute; reflexivity|].
      eapply bool_decide_unpack. vm_compute. exact I.
    + rewrite Hmd; [vm_compute; reflexivity|].
      eapply bool_decide_unpack. vm_compute. exact I.
Defined.

(** ** Validation errors *)

Lemma reported_app_l (e1 e2 : list line_error) (path : list loc_item) :
  reported e1 path → reported (e1 ++ e2) path.
Proof. intros (e & He & Hp). exists e. split; [|done]. set_solver. Qed.

Lemma reported_app_r (e1 e2 : list line_error) (path : list loc_item) :
  reported e2 path → reported (e1 ++ e2) path.
Proof. intros (e & He & Hp). exists e. split; [|done]. set_solver. Qed.

Lemma reported_at_loc (i : loc_item) (errs : list line_error)
    (path : list loc_item) :
  reported errs path → reported (at_loc i <$> errs) (i :: path).
Proof.
  intros (e & He & Hp). exists (at_loc i e). split.
  - by apply list_elem_of_fmap_2.
  - cbn. by apply prefix_cons.
Qed.

(** A field holding a value of the wrong type is reported at the field. *)
Lemma field_string_reported (d : gmap string json) (k : string) (v : json) :
  d !! k = Some v → ¬ optional_string v →
  reported (errors_of (field_default d k (validate_optional validate_str) None))
           [LKey k].
Proof.
  intros Hk Hbad. unfold field_default. rewrite Hk.
  rewrite errors_of_with_loc. apply (reported_at_loc _ _ []).
  exists (string_type v). split; [|done].
  destruct v as [| b | z | f | s | l | d']; cbn; try (by left).
  - exfalso. apply Hbad. by left.
  - exfalso. apply Hbad. right. by eexists.
Qed.

Lemma field_year_reported (d : gmap string json) (v : json) :
  d !! "year" = Some v → ¬ optional_int_or_string v →
  (∀ z, validate_int v ≠ Valid z) →
  reported (errors_of (field_default d "year"
                         (validate_optional validate_int_or_str) None))
           [LKey "year"].
Proof.
  intros Hk Hbad Hint. unfold field_default. rewrite Hk.
  rewrite errors_of_with_loc. apply (reported_at_loc _ _ []).
  exists (at_loc (LKey "str") (string_type v)).
  split; [|by apply prefix_nil].
  assert (validate_optional validate_int_or_str v
          = Invalid ((at_loc (LKey "int") <$> errors_of (validate_int v))
                     ++ [at_loc (LKey "str") (string_type v)])) as ->.
  { destruct v as [| b | z | f | s | l | d']; cbn.
    - exfalso. apply Hbad. by left.
    - by destruct (Hint (if b then 1 else 0)%Z).
    - by destruct (Hint z).
    - destruct (float_as_int f) as [z|e] eqn:Hf; [|done].
      by destruct (Hint z).
    - exfalso. apply Hbad. right. right. by eexists.
    - done.
    - done. }
  cbn. set_solver.
Qed.

Lemma Paper_violation_reported (v : json) (path : list loc_item) :
  Paper_violation v path → reported (errors_of (validate_Paper v)) path.
Proof.
  intros [v' Hv | d k v' Hk Hl Hbad | d v' Hl Hbad Hint].
  - exists (model_type "Paper" v'). split; [|done].
    destruct v' as [| | | | | |d]; cbn; try (by left). by destruct (Hv d).
  - unfold validate_Paper. rewrite !errors_of_vap. cbn [errors_of app].
    apply elem_of_cons in Hk as [->|Hk]; [|apply elem_of_cons in Hk as [->|Hk]].
    + apply reported_app_l, reported_app_l, reported_app_l.
      by eapply field_string_reported.
    + apply reported_app_l, reported_app_l, reported_app_r.
      by eapply field_string_reported.
    + by apply elem_of_nil in Hk.
  - unfold validate_Paper. rewrite !errors_of_vap. cbn [errors_of app].
    apply reported_app_l, reported_app_r. by eapply field_year_reported.
Qed.

Lemma Equation_violation_reported (v : json) (path : list loc_item) :
  Equation_violation v path → reported (errors_of (validate_Equation v)) path.
Proof.
  intros [v' Hv | d v' Hl Hbad].
  - exists (model_type "Equation" v'). split; [|done].
    destruct v' as [| | | | | |d]; cbn; try (by left). by destruct (Hv d).
  - unfold validate_Equation. rewrite !errors_of_vap. cbn [errors_of app].
    apply reported_app_l, reported_app_l. by eapply field_string_reported.
Qed.

Lemma ExtractionMetadata_violation_reported (v : json) (path : list loc_item) :
  ExtractionMetadata_violation v path →
  reported (errors_of (validate_ExtractionMetadata v)) path.
Proof.
  intros [v' Hv | d k v' Hk Hl Hbad].
  - exists (model_type "ExtractionMetadata" v'). split; [|done].
    destruct v' as [| | | | | |d]; cbn; try (by left). by destruct (Hv d).
  - unfold validate_ExtractionMetadata. rewrite !errors_of_vap.
    cbn [errors_of app].
    repeat (apply elem_of_cons in Hk as [->|Hk]);
      [| | | | by apply elem_of_nil in Hk].
    + do 4 apply reported_app_l. by eapply field_string_reported.
    + do 3 apply reported_app_l. apply reported_app_r.
      by eapply field_string_reported.
    + do 2 apply reported_app_l. apply reported_app_r.
      by eapply field_string_reported.
    + apply reported_app_l, reported_app_r. by eapply field_string_reported.
Qed.

(** The errors of every item of a list are kept, each under its index. *)
Lemma items_reported {A} (validator : json → validation A) (l : list json)
    (i j : nat) (x : json) (path : list loc_item) :
  l !! i = Some x →
  reported (errors_of (validator x)) path →
  reported (errors_of (validate_items validator j l)) (LIndex (j + i) :: path).
Proof.
  revert i j. induction l as [|y l IH]; intros i j Hi Hx; [done|].
  cbn [validate_items]. rewrite !errors_of_vap. cbn [errors_of app].
  destruct i as [|i]; cbn in Hi.
  - injection Hi as ->. apply reported_app_l. rewrite errors_of_with_loc.
    rewrite Nat.add_0_r. by apply reported_at_loc.
  - apply reported_app_r. replace (j + S i) with (S j + i) by lia.
    by apply IH.
Qed.

(** Every violation is among the errors the validator returns. *)
Lemma violation_reported (v : json) (path : list loc_item) :
  violation v path → reported (errors_of (model_validate v)) path.
Proof.
  intros [v' Hv | d k Hk Hl | d v' p Hl Hp | d v' Hl Hv
          | d l i x p Hl Hi Hx | d v' p Hl Hm].
  - exists (model_type "ExtractionOutput" v'). split; [|done].
    destruct v' as [| | | | | |d]; cbn; try (by left). by destruct (Hv d).
  - unfold model_validate. rewrite !errors_of_vap. cbn [errors_of app].
    assert (∀ A (validator : json → validation A),
              reported (errors_of (field_required d k validator)) [LKey k])
      as Hmiss.
    { intros A validator. unfold field_required. rewrite Hl.
      eexists. split; [by left | done]. }
    repeat (apply elem_of_cons in Hk as [->|Hk]);
      [| | | by apply elem_of_nil in Hk].
    + do 3 apply reported_app_l. apply Hmiss.
    + do 2 apply reported_app_l. apply reported_app_r, Hmiss.
    + apply reported_app_l, reported_app_r, Hmiss.
  - unfold model_validate. rewrite !errors_of_vap. cbn [errors_of app].
    do 3 apply reported_app_l. unfold field_required. rewrite Hl.
    rewrite errors_of_with_loc.
    by apply reported_at_loc, Paper_violation_reported.
  - unfold model_validate. rewrite !errors_of_vap. cbn [errors_of app].
    do 2 apply reported_app_l. apply reported_app_r.
    unfold field_required. rewrite Hl. rewrite errors_of_with_loc.
    apply (reported_at_loc _ _ []). exists (list_type v'). split; [|done].
    destruct v' as [| | | | |l|]; cbn; try (by left). by destruct (Hv l).
  - unfold model_validate. rewrite !errors_of_vap. cbn [errors_of app].
    do 2 apply reported_app_l. apply reported_app_r.
    unfold field_required. rewrite Hl. rewrite errors_of_with_loc.
    apply reported_at_loc. cbn [validate_list].
    apply (items_reported validate_Equation l i 0 x p Hi).
    by apply Equation_violation_reported.
  - unfold model_validate. rewrite !errors_of_vap. cbn [errors_of app].
    apply reported_app_l, reported_app_r.
    unfold field_required. rewrite Hl. rewrite errors_of_with_loc.
    by apply reported_at_loc, ExtractionMetadata_violation_reported.
Qed.

(** A failed validation always carries at least one error. *)
Lemma proper_vap {A B} (f : validation (A → B)) (x : validation A) :
  proper f → proper x → proper (f <*> x).
Proof.
  unfold proper. destruct f as [g|e1], x as [a|e2]; cbn;
    intros Hf Hx; [done | congruence | congruence |].
  intros [= H]. apply app_eq_nil in H as [-> _]. done.
Qed.

Lemma proper_with_loc {A} (i : loc_item) (x : validation A) :
  proper x → proper (with_loc i x).
Proof.
  unfold proper. destruct x as [a|e]; cbn; [done|].
  intros He [= ->%fmap_nil_inv]. done.
Qed.

Lemma proper_vmap {A B} (f : A → B) (x : validation A) :
  proper x → proper (vmap f x).
Proof. unfold proper. destruct x; cbn; congruence. Qed.

Lemma proper_optional {A} (validator : json → validation A) (v : json) :
  proper (validator v) → proper (validate_optional validator v).
Proof. intros H. destruct v; try by apply proper_vmap. done. Qed.

Lemma proper_str (v : json) : proper (validate_str v).
Proof. by destruct v. Qed.

Lemma proper_int (v : json) : proper (validate_int v).
Proof.
  destruct v as [| b | z | f | s | l | d]; try done. cbn.
  destruct f as [s | s | | s m e]; try done. cbn.
  repeat (case_match; try done).
Qed.

Lemma proper_int_or_str (v : json) : proper (validate_int_or_str v).
Proof.
  unfold validate_int_or_str.
  destruct v as [| b | z | f | s | l | d]; try done.
  pose proof (proper_int (JFloat f)) as H.
  destruct (validate_int (JFloat f)) as [z|[|e es]]; done.
Qed.

Lemma proper_field_default {A} (d : gmap string json) (k : string)
    (validator : json → validation A) (dflt : A) :
  (∀ v, proper (validator v)) → proper (field_default d k validator dflt).
Proof.
  intros H. unfold field_default.
  destruct (d !! k); [by apply proper_with_loc | done].
Qed.

Lemma proper_field_required {A} (d : gmap string json) (k : string)
    (validator : json → validation A) :
  (∀ v, proper (validator v)) → proper (field_required d k validator).
Proof.
  intros H. unfold field_required.
  destruct (d !! k); [by apply proper_with_loc | done].
Qed.

Lemma proper_items {A} (validator : json → validation A) (l : list json)
    (i : nat) :
  (∀ v, proper (validator v)) → proper (validate_items validator i l).
Proof.
  intros H. revert i. induction l as [|x l IH]; intros i; [done|].
  cbn [validate_items].
  repeat apply proper_vap; [done | by apply proper_with_loc | apply IH].
Qed.

Lemma proper_Paper (v : json) : proper (validate_Paper v).
Proof.
  destruct v as [| | | | | |d]; try done. unfold validate_Paper.
  repeat apply proper_vap; try done;
    apply proper_field_default; intros v; apply proper_optional;
    auto using proper_str, proper_int_or_str.
Qed.

Lemma proper_Equation (v : json) : proper (validate_Equation v).
Proof.
  destruct v as [| | | | | |d]; try done. unfold validate_Equation.
  repeat apply proper_vap; try done; apply proper_field_default; intros v;
    [apply proper_optional, proper_str | done].
Qed.

Lemma proper_ExtractionMetadata (v : json) :
  proper (validate_ExtractionMetadata v).
Proof.
  destruct v as [| | | | | |d]; try done.
  unfold validate_ExtractionMetadata.
  repeat apply proper_vap; try done;
    apply proper_field_default; intros v; apply proper_optional, proper_str.
Qed.

Lemma model_validate_errors (v : json) (errs : list line_error) :
  model_validate v = Invalid errs → errs ≠ [].
Proof.
  intros H ->. revert H.
  change (proper (model_validate v)).
  destruct v as [| | | | | |d]; try done. unfold model_validate.
  repeat apply proper_vap; try done; apply proper_field_required.
  - apply proper_Paper.
  - intros v. destruct v as [| | | | |l|]; try done.
    apply proper_items, proper_Equation.
  - apply proper_ExtractionMetadata.
Qed.

Lemma error_json_entry (e : line_error) : entry_of e (error_json e).
Proof.
  unfold entry_of, error_json. eexists. split; [reflexivity|].
  split; [rewrite lookup_insert_ne by done; by rewrite lookup_insert_eq|].
  split; [rewrite !lookup_insert_ne by done; by rewrite lookup_insert_eq|].
  split; [by rewrite lookup_insert_eq|].
  rewrite !lookup_insert_ne by done. by rewrite lookup_insert_eq.
Qed.

Lemma errors_entries (errs : list line_error) :
  Forall2 entry_of errs (error_json <$> errs).
Proof.
  induction errs as [|e errs IH]; [constructor|].
  rewrite fmap_cons. constructor; [apply error_json_entry | exact IH].
Qed.

Lemma reported_entry (errs : list line_error) (path : list loc_item) :
  reported errs path →
  ∃ d suffix, JDict d ∈ error_json <$> errs
              ∧ d !! "loc" = Some (JList (path_json path ++ suffix)).
Proof.
  intros (e & He & [k Hk]).
  destruct (error_json_entry e) as (d & Hd & Hloc & _).
  exists d, (path_json k). split.
  - rewrite <- Hd. by apply list_elem_of_fmap_2.
  - rewrite Hloc, Hk. unfold path_json. by rewrite fmap_app.
Qed.

(** C8: when the value the agent returns for a request fails validation,
    the handler answers with an error of code -32000 whose data holds,
    under [validation_errors], a list with one entry per error of the
    validator, in the validator's order, each entry carrying the field
    path and the message of its error; the list is not empty and reports
    every field-level violation of the value, not the first one only. *)
Theorem schema_violation_response (body : gmap string json)
    (run_agent_fn : option agent_fn) (text : string)
    (meta : gmap string json) (output : json)
    (errs : list line_error) :
  ¬ notification body →
  _extract_input_from_jsonrpc (py_get_default body "params" (JDict ∅))
    = (Some text, meta) →
  agent_result run_agent_fn text meta = Ok output →
  model_validate output = Invalid errs →
  ∃ resp err data entries,
    outcome (_handle_single_jsonrpc (JDict body) run_agent_fn)
    = Ok (JDict resp)
    ∧ resp !! "id" = body !! "id"
    ∧ resp !! "error" = Some (JDict err)
    ∧ err !! "code" = Some (JInt (-32000))
    ∧ err !! "message" = Some (JStr schema_mismatch_message)
    ∧ err !! "data" = Some (JDict data)
    ∧ data !! "validation_errors" = Some (JList entries)
    ∧ Forall2 entry_of errs entries
    ∧ entries ≠ []
    ∧ (∀ path, violation output path → reported errs path)
    ∧ (∀ path, violation output path →
         ∃ d suffix, JDict d ∈ entries
                     ∧ d !! "loc" = Some (JList (path_json path ++ suffix))).
Proof.
  intros Hreq Hex Hag Hval.
  set (data := ({["validation_errors" := errors errs]} : gmap string json)).
  set (err := (<["data" := JDict data]>
                (<["code" := JInt (-32000)]>
                (<["message" := JStr schema_mismatch_message]> ∅))
               : gmap string json)).
  exists (<["jsonrpc" := JStr "2.0"]>
            (<["id" := py_get body "id"]> (<["error" := JDict err]> ∅))),
         err, data, (error_json <$> errs).
  split.
  { rewrite handle_run. cbn zeta. rewrite (request_is_none _ Hreq).
    rewrite Hex, Hag, Hval. reflexivity. }
  split.
  { rewrite lookup_insert_ne by done. rewrite lookup_insert_eq.
    by rewrite request_id. }
  split.
  { rewrite !lookup_insert_ne by done. by rewrite lookup_insert_eq. }
  subst err data.
  split.
  { rewrite lookup_insert_ne by done. by rewrite lookup_insert_eq. }
  split.
  { rewrite !lookup_insert_ne by done. by rewrite lookup_insert_eq. }
  split; [by rewrite lookup_insert_eq|].
  split; [by rewrite lookup_singleton_eq|].
  split; [apply errors_entries|].
  split.
  { intros Hnil%fmap_nil_inv. by eapply model_validate_errors. }
  assert (∀ path, violation output path → reported errs path) as Hrep.
  { intros path Hviol. apply violation_reported in Hviol.
    by rewrite Hval in Hviol. }
  split; [exact Hrep|].
  intros path Hviol. by apply reported_entry, Hrep.
Qed.

Lemma schema_violation_response_witness :
  let body : gmap string json :=
    <["id" := JInt 1]>
      (<["params" := JDict {["input_text" := JStr "y = a + bx"]}]> ∅) in
  let output : json :=
    JDict (<["paper" := JDict {["doi" := JInt 5]}]>
          (<["equations" := JStr "not-a-list"]>
          (<["extraction_metadata" := JDict ∅]> ∅))) in
  let errs : list line_error :=
    [at_loc (LKey "paper") (at_loc (LKey "doi") (string_type (JInt 5)));
     at_loc (LKey "equations") (list_type (JStr "not-a-list"))] in
  ∃ resp err data entries,
    outcome (_handle_single_jsonrpc (JDict body) (Some (λ _ _, Ok output)))
    = Ok (JDict resp)
    ∧ resp !! "error" = Some (JDict err)
    ∧ err !! "code" = Some (JInt (-32000))
    ∧ err !! "data" = Some (JDict data)
    ∧ data !! "validation_errors" = Some (JList entries)
    ∧ Forall2 entry_of errs entries
    ∧ (∃ d suffix, JDict d ∈ entries
         ∧ d !! "loc" = Some (JList ([JStr "paper"; JStr "doi"] ++ suffix)))
    ∧ (∃ d suffix, JDict d ∈ entries
         ∧ d !! "loc" = Some (JList ([JStr "equations"] ++ suffix))).
Proof.
  intros body output errs.
  destruct (schema_violation_response body (Some (λ _ _, Ok output))
              "y = a + bx" ∅ output errs)
    as (resp & err & data & entries & Hout & _ & Herr & Hcode & _ & Hdata
        & Hlist & Hall & _ & _ & Hloc).
  - intros [Hn|Hn]; vm_compute in Hn; discriminate.
  - vm_compute. reflexivity.
  - reflexivity.
  - vm_compute. reflexivity.
  - exists resp, err, data, entries.
    split; [exact Hout|]. split; [exact Herr|]. split; [exact Hcode|].
    split; [exact Hdata|]. split; [exact Hlist|]. split; [exact Hall|].
    split.
    + apply (Hloc [LKey "paper"; LKey "doi"]).
      apply Output_paper with (v := JDict {["doi" := JInt 5]}).
      * vm_compute. reflexivity.
      * apply Paper_bad_string with (v := JInt 5).
        -- apply elem_of_cons. by left.
        -- vm_compute. reflexivity.
        -- intros [H|[s H]]; discriminate.
    + apply (Hloc [LKey "equations"]).
      apply Output_equations_not_list with (v := JStr "not-a-list").
      * vm_compute. reflexivity.
      * intros l H. discriminate.
Defined.

(** ** The end-to-end scenarios of the specification *)

Example strip_example : py_strip "  y = x  " = "y = x".
Proof. reflexivity. Qed.

(** Scenario A: a request with [input.text], served by the stub. *)
Example scenario_stub_success :
  let request : json :=
    JDict (<["jsonrpc" := JStr "2.0"]> (<["id" := JInt 1]>
          (<["method" := JStr "extract"]>
          (<["params" := JDict {["input" := JDict {["text" := JStr "y = a + bx"]}]}]>
             ∅)))) in
  ∃ resp result eq,
    outcome (jsonrpc_root request None) = Ok (JDict resp)
    ∧ resp !! "id" = Some (JInt 1)
    ∧ resp !! "result" = Some (JDict result)
    ∧ result !! "equations" = Some (JList [JDict eq])
    ∧ eq !! "notes" = Some (JStr stub_notes)
    ∧ eq !! "latex" = Some JNull.
Proof.
  eexists _, _, _. split; [vm_compute; reflexivity|].
  repeat split; vm_compute; reflexivity.
Qed.

(** Scenario B: empty [params], no text to extract. *)
Example scenario_missing_text :
  let request : json :=
    JDict (<["id" := JInt 1]> (<["params" := JDict ∅]> ∅)) in
  ∃ resp err,
    jsonrpc_root request None = MkM [EvExtract (JDict ∅)] (Ok (JDict resp))
    ∧ resp !! "id" = Some (JInt 1)
    ∧ resp !! "error" = Some (JDict err)
    ∧ err !! "code" = Some (JInt (-32602)).
Proof.
  eexists _, _. split; [vm_compute; reflexivity|].
  repeat split; vm_compute; reflexivity.
Qed.

(** A payload item that is no object makes [body.get] fail. *)
Example scenario_not_an_object :
  outcome (jsonrpc_root (JList [JInt 3]) None) = Raise AttributeError.
Proof. reflexivity. Qed.

(** ** More on the extractor *)

(** The extractor finds no text exactly when [params] has no usable
    [input.text] and none of the four direct fields holds a string that is
    not blank. *)
Theorem extract_no_text_iff (params : gmap string json) :
  (_extract_input_from_jsonrpc (JDict params)).1 = None ↔
  ¬ has_input_text params
  ∧ ∀ k, k ∈ direct_fields → ∀ s, ¬ usable params k s.
Proof.
  split.
  - intros Hnone.
    assert (¬ has_input_text params) as Hno.
    { intros (i & t & Hi & Hu).
      by rewrite (extract_text_input params i t Hi Hu) in Hnone. }
    split; [done|]. apply direct_fields_loop_None.
    by rewrite <- (extract_text_fallback params Hno).
  - intros [Hno Hall]. rewrite (extract_text_fallback params Hno).
    by apply direct_fields_loop_None.
Qed.

(** A text the extractor returns is never made up: [params] is a record,
    and the text is its usable [input.text] or the usable value of one of
    the four direct fields; so it is never blank. *)
Theorem extract_text_origin (params : json) (t : string) :
  (_extract_input_from_jsonrpc params).1 = Some t →
  nonblank t
  ∧ ∃ p, params = JDict p
         ∧ ((∃ i, p !! "input" = Some (JDict i) ∧ usable i "text" t)
            ∨ ∃ k, k ∈ direct_fields ∧ usable p k t).
Proof.
  intros H. split; [by eapply extract_text_nonblank|].
  destruct params as [| b | z | f | s | l | p]; try done.
  exists p. split; [done|]. rewrite extract_text_cases in H.
  assert (direct_fields_loop p direct_fields = Some t →
          ∃ k, k ∈ direct_fields ∧ usable p k t) as Hloop.
  { intros (pre & k & post & Heq & Hu & _)%direct_fields_loop_Some.
    exists k. split; [|done]. rewrite Heq. set_solver. }
  destruct (p !! "input") as [[| b | z | f | s | l | i]|] eqn:Hi; auto.
  destruct (i !! "text") as [[| b | z | f | t' | l | d']|] eqn:Ht; auto.
  destruct (truthy (JStr (py_strip t'))) eqn:Hs; auto.
  injection H as ->. left. exists i. split; [done|]. split; [done|].
  by apply strip_truthy.
Qed.

Lemma extract_text_origin_witness :
  nonblank "a = b".
Proof.
  apply (extract_text_origin (JDict {["chunk_text" := JStr "a = b"]}) "a = b").
  vm_compute. reflexivity.
Defined.

Lemma direct_fields_loop_ext (p1 p2 : gmap string json) (ks : list string) :
  (∀ k, k ∈ ks → p1 !! k = p2 !! k) →
  direct_fields_loop p1 ks = direct_fields_loop p2 ks.
Proof.
  induction ks as [|k ks IH]; intros H; [done|].
  cbn [direct_fields_loop]. unfold py_get. rewrite (H k) by set_solver.
  rewrite IH; [done|]. intros k' Hk'. apply H. set_solver.
Qed.

(** The metadata depends on [task_id], [schema], [paper] and [input] only:
    setting any other key of [params] leaves it unchanged. *)
Theorem extract_meta_frame (params : gmap string json) (k : string)
    (v : json) :
  k ∉ meta_sources →
  (_extract_input_from_jsonrpc (JDict (<[k := v]> params))).2
  = (_extract_input_from_jsonrpc (JDict params)).2.
Proof.
  intros Hk. rewrite !extract_meta_steps.
  assert (∀ k', k' ∈ meta_sources → <[k := v]> params !! k' = params !! k')
    as Hsame.
  { intros k' Hk'. apply lookup_insert_ne. intros ->. done. }
  unfold meta_input, meta_paper, meta_schema, meta_task_id, py_in, py_get.
  rewrite !(Hsame "task_id"), !(Hsame "schema"), !(Hsame "paper"),
    !(Hsame "input") by (unfold meta_sources; set_solver).
  done.
Qed.

Lemma extract_meta_frame_witness :
  (_extract_input_from_jsonrpc
     (JDict (<["text" := JStr "x"]> {["task_id" := JStr "t1"]}))).2
  = (_extract_input_from_jsonrpc (JDict {["task_id" := JStr "t1"]})).2.
Proof.
  apply (extract_meta_frame {["task_id" := JStr "t1"]} "text" (JStr "x")).
  eapply bool_decide_unpack. vm_compute. exact I.
Defined.

(** The text depends on [input], [input_text], [text], [chunk_text] and
    [content] only: setting any other key of [params] leaves it unchanged. *)
Theorem extract_text_frame (params : gmap string json) (k : string)
    (v : json) :
  k ∉ text_sources →
  (_extract_input_from_jsonrpc (JDict (<[k := v]> params))).1
  = (_extract_input_from_jsonrpc (JDict params)).1.
Proof.
  intros Hk. rewrite !extract_text_cases.
  assert (∀ k', k' ∈ text_sources → <[k := v]> params !! k' = params !! k')
    as Hsame.
  { intros k' Hk'. apply lookup_insert_ne. intros ->. done. }
  rewrite (Hsame "input") by (unfold text_sources; set_solver).
  rewrite (direct_fields_loop_ext (<[k := v]> params) params direct_fields).
  - done.
  - intros k' Hk'. apply Hsame. unfold direct_fields in Hk'.
    unfold text_sources. set_solver.
Qed.

Lemma extract_text_frame_witness :
  (_extract_input_from_jsonrpc
     (JDict (<["task_id" := JStr "t1"]> {["text" := JStr "x"]}))).1
  = (_extract_input_from_jsonrpc (JDict {["text" := JStr "x"]})).1.
Proof.
  apply (extract_text_frame {["text" := JStr "x"]} "task_id" (JStr "t1")).
  eapply bool_decide_unpack. vm_compute. exact I.
Defined.

(** [_first_nonempty] returns the first argument that is a string and not
    blank, unchanged, and [None] exactly when there is none. *)
Theorem first_nonempty_first (vals : list (option string)) :
  (∀ s, _first_nonempty vals = Some s ↔
        ∃ pre post, vals = pre ++ Some s :: post ∧ nonblank s
                    ∧ ∀ s', Some s' ∈ pre → ¬ nonblank s')
  ∧ (_first_nonempty vals = None ↔ ∀ s', Some s' ∈ vals → ¬ nonblank s').
Proof.
  induction vals as [|v vals [IHs IHn]]; cbn [_first_nonempty].
  - split.
    + intros s. split; [done|]. intros (pre & post & H & _). by destruct pre.
    + split; [|done]. intros _ s' Hin. by apply elem_of_nil in Hin.
  - assert ((∀ s', v = Some s' → ¬ nonblank s') →
            (∀ s, _first_nonempty vals = Some s ↔
               ∃ pre post, v :: vals = pre ++ Some s :: post ∧ nonblank s
                           ∧ ∀ s', Some s' ∈ pre → ¬ nonblank s')
            ∧ (_first_nonempty vals = None ↔
               ∀ s', Some s' ∈ v :: vals → ¬ nonblank s')) as Hskip.
    { intros Hv. split.
      - intros s. rewrite IHs. split.
        + intros (pre & post & -> & Hs & Hpre).
          exists (v :: pre), post. split; [done|]. split; [done|].
          intros s' [<-|Hin]%elem_of_cons; [by apply Hv | by apply Hpre].
        + intros (pre & post & Heq & Hs & Hpre).
          destruct pre as [|v' pre]; simplify_eq/=.
          * by destruct (Hv s eq_refl).
          * exists pre, post. split; [done|]. split; [done|].
            intros s' Hin. apply Hpre. by right.
      - rewrite IHn. split.
        + intros H s' [<-|Hin]%elem_of_cons; [by apply Hv | by apply H].
        + intros H s' Hin. apply H. by right. }
    destruct v as [s0|]; [|by apply Hskip].
    change (negb (py_strip s0 =? "")%string) with (truthy (JStr (py_strip s0))).
    destruct (truthy (JStr (py_strip s0))) eqn:Ht.
    + apply strip_truthy in Ht. split.
      * intros s. split.
        -- intros [= ->]. exists [], vals. split; [done|]. split; [done|].
           intros s' Hin. by apply elem_of_nil in Hin.
        -- intros (pre & post & Heq & Hs & Hpre).
           destruct pre as [|v' pre]; simplify_eq/=; [done|].
           exfalso. apply (Hpre s0); [by left | done].
      * split; [done|]. intros H. exfalso. apply (H s0); [by left | done].
    + apply strip_falsy in Ht. apply Hskip. by intros s' [= <-].
Qed.

(** ** Envelopes and responses *)

(** A success envelope holds exactly [jsonrpc], [id] and [result]; an
    error envelope holds exactly [jsonrpc], [id] and [error], and its error
    object has a [data] entry exactly when [data] is not [None]. *)
Theorem envelope_shapes (rpc_id result : json) (code : Z) (message : string)
    (data : json) :
  (∃ s, _jsonrpc_success rpc_id result = JDict s
        ∧ dom s = {["jsonrpc"; "id"; "result"]}
        ∧ s !! "jsonrpc" = Some (JStr "2.0")
        ∧ s !! "id" = Some rpc_id
        ∧ s !! "result" = Some result)
  ∧ (∃ e err, _jsonrpc_error rpc_id code message data = JDict e
        ∧ dom e = {["jsonrpc"; "id"; "error"]}
        ∧ e !! "jsonrpc" = Some (JStr "2.0")
        ∧ e !! "id" = Some rpc_id
        ∧ e !! "error" = Some (JDict err)
        ∧ err !! "code" = Some (JInt code)
        ∧ err !! "message" = Some (JStr message)
        ∧ err !! "data" = (if is_none data then None else Some data)).
Proof.
  split.
  - eexists. split; [reflexivity|].
    split; [rewrite !dom_insert_L, dom_empty_L; set_solver|].
    repeat split; by simplify_map_eq.
  - eexists _, _. split; [reflexivity|].
    split; [rewrite !dom_insert_L, dom_empty_L; set_solver|].
    split; [by simplify_map_eq|]. split; [by simplify_map_eq|].
    split; [by simplify_map_eq|].
    destruct data; repeat split; by simplify_map_eq.
Qed.

(** ** More on the handler *)

(** A request that is no notification and from whose [params] no text is
    extracted (absent [params], [params] that is no record, blank fields)
    gets the error -32602 with the request's [method] as data, and the
    agent is not called, whatever the agent is. *)
Theorem missing_text_response (body : gmap string json)
    (run_agent_fn : option agent_fn) :
  ¬ notification body →
  (_extract_input_from_jsonrpc (py_get_default body "params" (JDict ∅))).1
    = None →
  _handle_single_jsonrpc (JDict body) run_agent_fn
  = MkM [EvExtract (py_get_default body "params" (JDict ∅))]
        (Ok (_jsonrpc_error (py_get body "id") (-32602) missing_text_message
               (JDict {["method" := py_get_default body "method" (JStr "")]}))).
Proof.
  intros Hreq Hnone. rewrite handle_run. cbn zeta.
  rewrite (request_is_none _ Hreq).
  destruct (_extract_input_from_jsonrpc _) as [[t|] meta]; done.
Qed.

Lemma missing_text_response_witness :
  let body : gmap string json :=
    <["id" := JInt 4]> (<["params" := JList [JStr "y = a + bx"]]> ∅) in
  let failing : agent_fn := λ _ _, Raise (AgentException "RuntimeError") in
  _handle_single_jsonrpc (JDict body) (Some failing)
  = MkM [EvExtract (JList [JStr "y = a + bx"])]
        (Ok (_jsonrpc_error (JInt 4) (-32602) missing_text_message
               (JDict {["method" := JStr ""]}))).
Proof.
  intros body failing.
  apply (missing_text_response body (Some failing)).
  - intros [Hn|Hn]; vm_compute in Hn; discriminate.
  - reflexivity.
Defined.

(** Whatever the agent does, a result the handler returns for a request
    object is [None] exactly for a notification; otherwise it is an
    envelope with [jsonrpc] "2.0", the [id] of the request, and exactly one
    of [result] and [error]. *)
Theorem response_shape (body : gmap string json)
    (run_agent_fn : option agent_fn) (r : json) :
  outcome (_handle_single_jsonrpc (JDict body) run_agent_fn) = Ok r →
  (r = JNull ↔ notification body)
  ∧ (¬ notification body →
     ∃ resp, r = JDict resp
       ∧ resp !! "jsonrpc" = Some (JStr "2.0")
       ∧ resp !! "id" = body !! "id"
       ∧ (is_Some (resp !! "result") ∧ resp !! "error" = None
          ∨ resp !! "result" = None ∧ is_Some (resp !! "error"))).
Proof.
  rewrite handle_run. cbn zeta.
  destruct (is_none (py_get body "id")) eqn:Hid.
  - apply notification_is_none in Hid. intros [= <-]. split; [done|].
    intros Hreq. by destruct Hreq.
  - assert (¬ notification body) as Hreq.
    { rewrite notification_is_none. by rewrite Hid. }
    rewrite (request_id _ Hreq).
    intros Hout.
    assert (∃ resp, r = JDict resp
       ∧ resp !! "jsonrpc" = Some (JStr "2.0")
       ∧ resp !! "id" = Some (py_get body "id")
       ∧ (is_Some (resp !! "result") ∧ resp !! "error" = None
          ∨ resp !! "result" = None ∧ is_Some (resp !! "error"))) as Hresp.
    { destruct (_extract_input_from_jsonrpc _) as [[t|] meta].
      - destruct (agent_result run_agent_fn t meta) as [out|e]; [|done].
        injection Hout as <-.
        destruct (model_validate out) as [o|errs]; eexists;
          (split; [reflexivity|]); simplify_map_eq; naive_solver.
      - injection Hout as <-. eexists. split; [reflexivity|].
        simplify_map_eq. naive_solver. }
    split; [|done].
    destruct Hresp as (resp & -> & _). split; [done|]. intros Hn. done.
Qed.

Lemma response_shape_witness :
  let body : gmap string json :=
    <["id" := JInt 4]> (<["params" := JDict {["text" := JStr "a = b"]}]> ∅) in
  ∃ resp, outcome (_handle_single_jsonrpc (JDict body) None) = Ok (JDict resp)
          ∧ resp !! "id" = Some (JInt 4).
Proof.
  intros body.
  destruct (response_shape body None
              (returned (_handle_single_jsonrpc (JDict body) None)))
    as [_ Hshape].
  - vm_compute. reflexivity.
  - destruct Hshape as (resp & Hr & _ & Hid & _).
    + intros [Hn|Hn]; vm_compute in Hn; discriminate.
    + exists resp. split; [|exact Hid].
      rewrite <- Hr. vm_compute. reflexivity.
Defined.

(** The handler reads [id], [method] and [params] only: setting any other
    key of the body, [jsonrpc] included, changes neither the calls it makes
    nor its result. *)
Theorem body_frame (body : gmap string json) (k : string) (v : json)
    (run_agent_fn : option agent_fn) :
  k ∉ body_sources →
  _handle_single_jsonrpc (JDict (<[k := v]> body)) run_agent_fn
  = _handle_single_jsonrpc (JDict body) run_agent_fn.
Proof.
  intros Hk. rewrite !handle_run. unfold py_get, py_get_default.
  assert (∀ k', k' ∈ body_sources → <[k := v]> body !! k' = body !! k')
    as Hsame.
  { intros k' Hk'. apply lookup_insert_ne. intros ->. done. }
  rewrite !(Hsame "id"), !(Hsame "method"), !(Hsame "params")
    by (unfold body_sources; set_solver).
  done.
Qed.

Lemma body_frame_witness :
  _handle_single_jsonrpc
    (JDict (<["jsonrpc" := JStr "1.0"]> {["id" := JInt 1]})) None
  = _handle_single_jsonrpc (JDict {["id" := JInt 1]}) None.
Proof.
  apply (body_frame {["id" := JInt 1]} "jsonrpc" (JStr "1.0") None).
  eapply bool_decide_unpack. vm_compute. exact I.
Defined.

(** The handler does not dispatch on [method]: for a notification, and for
    a request from which a text is extracted, the calls and the result are
    the same whatever [method] is set to. *)
Theorem method_ignored (body : gmap string json) (m : json)
    (run_agent_fn : option agent_fn) :
  notification body
  ∨ (_extract_input_from_jsonrpc (py_get_default body "params" (JDict ∅))).1
      ≠ None →
  _handle_single_jsonrpc (JDict (<["method" := m]> body)) run_agent_fn
  = _handle_single_jsonrpc (JDict body) run_agent_fn.
Proof.
  intros H. rewrite !handle_run. unfold py_get, py_get_default.
  rewrite !(lookup_insert_ne body "method" "id") by done.
  rewrite !(lookup_insert_ne body "method" "params") by done.
  fold (py_get body "id"). fold (py_get_default body "params" (JDict ∅)).
  cbn zeta.
  destruct (is_none (py_get body "id")) eqn:Hid; [done|].
  destruct H as [Hn|Htext].
  - apply notification_is_none in Hn. congruence.
  - destruct (_extract_input_from_jsonrpc _) as [[t|] meta]; done.
Qed.

Lemma method_ignored_witness :
  let body : gmap string json :=
    <["id" := JInt 1]> (<["params" := JDict {["text" := JStr "a = b"]}]> ∅) in
  _handle_single_jsonrpc (JDict (<["method" := JStr "tasks/send"]> body)) None
  = _handle_single_jsonrpc (JDict body) None.
Proof.
  intros body. apply (method_ignored body (JStr "tasks/send") None).
  right. vm_compute. discriminate.
Defined.

(** The result of a success response is the serialisation of a value the
    validator accepted, and validates to that value again: a success
    response never carries a result that violates the schema. *)
Theorem success_result_valid (body : gmap string json)
    (run_agent_fn : option agent_fn) (resp : gmap string json)
    (result : json) :
  outcome (_handle_single_jsonrpc (JDict body) run_agent_fn)
    = Ok (JDict resp) →
  resp !! "result" = Some result →
  ∃ o, model_validate result = Valid o ∧ model_dump o = result.
Proof.
  rewrite handle_run. cbn zeta.
  destruct (is_none (py_get body "id")); [done|].
  destruct (_extract_input_from_jsonrpc _) as [[t|] meta].
  - destruct (agent_result run_agent_fn t meta) as [out|e]; [|done].
    destruct (model_validate out) as [o|errs] eqn:Hval.
    + intros [= <-] Hres. simplify_map_eq. exists o. split; [|done].
      by apply validate_dump, (model_validate_normalized out).
    + intros [= <-] Hres. by simplify_map_eq.
  - intros [= <-] Hres. by simplify_map_eq.
Qed.

Lemma success_result_valid_witness :
  let body : gmap string json :=
    <["id" := JInt 1]> (<["params" := JDict {["text" := JStr "a = b"]}]> ∅) in
  ∃ o, model_validate (model_dump o) = Valid o.
Proof.
  intros body.
  set (r := returned (_handle_single_jsonrpc (JDict body) None)).
  assert (∃ resp result, r = JDict resp ∧ resp !! "result" = Some result)
    as (resp & result & Hr & Hres).
  { eexists _, _. split; vm_compute; reflexivity. }
  destruct (success_result_valid body None resp result) as (o & Hv & Hd).
  - rewrite <- Hr. vm_compute. reflexivity.
  - exact Hres.
  - exists o. by rewrite Hd.
Defined.

(** ** The stub and the placeholder agents *)

Lemma is_valid_vap {A B} (f : validation (A → B)) (x : validation A) :
  is_valid (f <*> x) ↔ is_valid f ∧ is_valid x.
Proof.
  unfold is_valid. split.
  - intros [b (g & a & -> & -> & _)%vap_Valid]. eauto.
  - intros [[g ->] [a ->]]. by eexists.
Qed.

Lemma is_valid_with_loc {A} (i : loc_item) (x : validation A) :
  is_valid (with_loc i x) ↔ is_valid x.
Proof. unfold is_valid. destruct x; cbn; naive_solver. Qed.

Lemma is_valid_Valid {A} (a : A) : is_valid (Valid a) ↔ True.
Proof. unfold is_valid. naive_solver. Qed.

Lemma is_valid_optional_str (v : json) :
  is_valid (validate_optional validate_str v) ↔ optional_string v.
Proof.
  unfold is_valid, optional_string.
  destruct v; cbn; naive_solver.
Qed.

Lemma stub_valid_iff (text : string) (meta : gmap string json) :
  is_valid (model_validate (_run_agent_stub text meta)) ↔
  optional_string (py_get meta "input_doi")
  ∧ optional_string (py_get meta "task_id")
  ∧ optional_string (py_get meta "schema_name")
  ∧ optional_string (py_get meta "schema_version").
Proof.
  unfold _run_agent_stub, model_validate. lookup_fields.
  cbn [validate_list validate_items].
  unfold validate_Paper, validate_Equation, validate_ExtractionMetadata.
  lookup_fields.
  repeat (rewrite !is_valid_vap || rewrite !is_valid_with_loc).
  rewrite !is_valid_Valid, !is_valid_optional_str.
  assert (optional_string JNull) by (by left).
  assert (is_valid (validate_any JNull)) by (by eexists).
  assert (is_valid (validate_optional validate_int_or_str JNull))
    by (by eexists).
  naive_solver.
Qed.

(** The output of the stub passes validation exactly when the four values
    it copies from [meta] ([input_doi], [task_id], [schema_name],
    [schema_version], each [None] when absent) are null or strings; so a
    request served by the stub gets a [result] exactly in that case, and
    the schema error otherwise. *)
Theorem stub_response (body : gmap string json) (text : string)
    (meta : gmap string json) :
  ¬ notification body →
  _extract_input_from_jsonrpc (py_get_default body "params" (JDict ∅))
    = (Some text, meta) →
  let accepted :=
    optional_string (py_get meta "input_doi")
    ∧ optional_string (py_get meta "task_id")
    ∧ optional_string (py_get meta "schema_name")
    ∧ optional_string (py_get meta "schema_version") in
  (is_valid (model_validate (_run_agent_stub text meta)) ↔ accepted)
  ∧ ∃ resp,
      outcome (_handle_single_jsonrpc (JDict body) None) = Ok (JDict resp)
      ∧ (is_Some (resp !! "result") ↔ accepted)
      ∧ (is_Some (resp !! "error") ↔ ¬ accepted).
Proof.
  intros Hreq Hex accepted.
  pose proof (stub_valid_iff text meta) as Hiff. fold accepted in Hiff.
  split; [exact Hiff|].
  rewrite handle_run. cbn zeta. rewrite (request_is_none _ Hreq), Hex.
  cbn [agent_result outcome].
  destruct (model_validate (_run_agent_stub text meta)) as [o|errs].
  - assert accepted as Hacc by (apply Hiff; by eexists).
    eexists. split; [reflexivity|]. simplify_map_eq. split.
    + split; [done | by eauto].
    + split; [by intros [? ?] | done].
  - assert (¬ accepted) as Hacc by (intros [o Ho]%Hiff; done).
    eexists. split; [reflexivity|]. simplify_map_eq. split.
    + split; [by intros [? ?] | done].
    + split; [done | by eauto].
Qed.

Lemma stub_response_witness :
  let body : gmap string json :=
    <["id" := JInt 1]>
      (<["params" := JDict (<["task_id" := JInt 7]>
                           {["input_text" := JStr "a = b"]})]> ∅) in
  ∃ resp, outcome (_handle_single_jsonrpc (JDict body) None) = Ok (JDict resp)
          ∧ is_Some (resp !! "error").
Proof.
  intros body.
  destruct (stub_response body "a = b" {["task_id" := JInt 7]})
    as [_ (resp & Hout & _ & Herr)].
  - intros [Hn|Hn]; vm_compute in Hn; discriminate.
  - vm_compute. reflexivity.
  - exists resp. split; [exact Hout|]. apply Herr.
    intros (_ & [H|[s H]] & _); vm_compute in H; discriminate.
Defined.

Lemma handle_placeholder (body : gmap string json) (text : string)
    (meta : gmap string json) :
  ¬ notification body →
  _extract_input_from_jsonrpc (py_get_default body "params" (JDict ∅))
    = (Some text, meta) →
  outcome (_handle_single_jsonrpc (JDict body) (Some run_agent_placeholder))
  = Ok (_jsonrpc_error (py_get body "id") (-32000) schema_mismatch_message
          (JDict {["validation_errors" :=
                    errors [model_type "ExtractionOutput" JNull]]})).
Proof.
  intros Hreq Hex. rewrite handle_run. cbn zeta.
  by rewrite (request_is_none _ Hreq), Hex.
Qed.

(** With [run_agent_placeholder] as the agent, every request that is no
    notification and carries a text gets the schema error -32000, whose
    [validation_errors] hold a single entry, of type [model_type], located
    at the root, with the returned [None] as input: [None] is no record. *)
Theorem placeholder_rejected (body : gmap string json) (text : string)
    (meta : gmap string json) :
  ¬ notification body →
  _extract_input_from_jsonrpc (py_get_default body "params" (JDict ∅))
    = (Some text, meta) →
  ∃ resp err data entry,
    outcome (_handle_single_jsonrpc (JDict body) (Some run_agent_placeholder))
    = Ok (JDict resp)
    ∧ resp !! "id" = body !! "id"
    ∧ resp !! "error" = Some (JDict err)
    ∧ err !! "code" = Some (JInt (-32000))
    ∧ err !! "message" = Some (JStr schema_mismatch_message)
    ∧ err !! "data" = Some (JDict data)
    ∧ data !! "validation_errors" = Some (JList [JDict entry])
    ∧ entry !! "type" = Some (JStr "model_type")
    ∧ entry !! "loc" = Some (JList [])
    ∧ entry !! "msg"
      = Some (JStr "Input should be a valid dictionary or instance of ExtractionOutput")
    ∧ entry !! "input" = Some JNull.
Proof.
  intros Hreq Hex.
  rewrite (handle_placeholder body text meta Hreq Hex).
  unfold _jsonrpc_error, errors. rewrite fmap_cons, fmap_nil.
  unfold error_json. cbn [model_type err_type err_loc err_msg err_input
                          err_ctx fmap list_fmap].
  eexists _, _, _, _. split; [reflexivity|].
  split.
  { rewrite lookup_insert_ne by done. rewrite lookup_insert_eq.
    by rewrite request_id. }
  split.
  { rewrite !lookup_insert_ne by done. rewrite lookup_insert_eq.
    reflexivity. }
  split.
  { rewrite lookup_insert_ne by done. by rewrite lookup_insert_eq. }
  split.
  { rewrite !lookup_insert_ne by done. by rewrite lookup_insert_eq. }
  split; [rewrite lookup_insert_eq; reflexivity|].
  split; [rewrite lookup_singleton_eq; reflexivity|].
  split; [by rewrite lookup_insert_eq|].
  split; [rewrite lookup_insert_ne by done; by rewrite lookup_insert_eq|].
  split; [rewrite !lookup_insert_ne by done; by rewrite lookup_insert_eq|].
  rewrite !lookup_insert_ne by done. by rewrite lookup_insert_eq.
Qed.

Lemma placeholder_rejected_witness :
  let body : gmap string json :=
    <["id" := JInt 1]> (<["params" := JDict {["text" := JStr "a = b"]}]> ∅) in
  ∃ resp err data entry,
    outcome (_handle_single_jsonrpc (JDict body) (Some run_agent_placeholder))
    = Ok (JDict resp)
    ∧ resp !! "error" = Some (JDict err)
    ∧ err !! "code" = Some (JInt (-32000))
    ∧ err !! "data" = Some (JDict data)
    ∧ data !! "validation_errors" = Some (JList [JDict entry])
    ∧ entry !! "type" = Some (JStr "model_type")
    ∧ entry !! "loc" = Some (JList []).
Proof.
  intros body.
  destruct (placeholder_rejected body "a = b" ∅)
    as (resp & err & data & entry & Hout & _ & Herr & Hcode & _ & Hdata
        & Hlist & Htype & Hloc & _).
  - intros [Hn|Hn]; vm_compute in Hn; discriminate.
  - vm_compute. reflexivity.
  - exists resp, err, data, entry.
    split; [exact Hout|]. split; [exact Herr|]. split; [exact Hcode|].
    split; [exact Hdata|]. split; [exact Hlist|].
    split; [exact Htype | exact Hloc].
Defined.

(** ** The application *)

(** The application [main] builds serves the stub when
    [--use-placeholder-agent] is given and [run_agent_placeholder]
    otherwise, so that without the flag a request that is no notification
    and carries a text is answered with the schema error. *)
Theorem main_agent (args : Args) :
  (use_placeholder_agent args = true →
   ∀ payload, post_root (main_app args) payload = jsonrpc_root payload None)
  ∧ (use_placeholder_agent args = false →
     ∀ body text meta,
       ¬ notification body →
       _extract_input_from_jsonrpc (py_get_default body "params" (JDict ∅))
         = (Some text, meta) →
       ∃ resp err,
         outcome (post_root (main_app args) (JDict body)) = Ok (JDict resp)
         ∧ resp !! "error" = Some (JDict err)
         ∧ err !! "code" = Some (JInt (-32000))).
Proof.
  unfold main_app. split; intros Hflag; rewrite Hflag.
  - done.
  - intros body text meta Hreq Hex. cbn [create_app post_root jsonrpc_root].
    rewrite (handle_placeholder body text meta Hreq Hex).
    unfold _jsonrpc_error. eexists _, _. split; [reflexivity|]. split.
    + rewrite !lookup_insert_ne by done. rewrite lookup_insert_eq.
      reflexivity.
    + rewrite lookup_insert_ne by done. by rewrite lookup_insert_eq.
Qed.

Lemma main_agent_witness :
  let args : Args :=
    {| host := "0.0.0.0"; port := 8000; card_url := None;
       use_placeholder_agent := false |} in
  let body : gmap string json :=
    <["id" := JInt 1]> (<["params" := JDict {["text" := JStr "a = b"]}]> ∅) in
  ∃ resp err,
    outcome (post_root (main_app args) (JDict body)) = Ok (JDict resp)
    ∧ resp !! "error" = Some (JDict err)
    ∧ err !! "code" = Some (JInt (-32000)).
Proof.
  intros args body.
  destruct (main_agent args) as [_ H].
  apply (H eq_refl body "a = b" ∅).
  - intros [Hn|Hn]; vm_compute in Hn; discriminate.
  - vm_compute. reflexivity.
Defined.

(** The card [create_app] serves is the same at both discovery routes, has
    [url] [base_url] and [capabilities.streaming] false, and lists four
    endpoints, each [base_url] followed by one of the routes the
    application registers; the health route answers [ok: true]. *)
Theorem app_card (base_url agent_name agent_description : string)
    (run_agent_fn : option agent_fn) :
  let app := create_app base_url agent_name agent_description run_agent_fn in
  agent_card_json app = agent_json app
  ∧ health app = JDict {["ok" := JBool true]}
  ∧ ∃ card endpoints,
      agent_card_json app = JDict card
      ∧ card !! "name" = Some (JStr agent_name)
      ∧ card !! "url" = Some (JStr base_url)
      ∧ card !! "capabilities" = Some (JDict {["streaming" := JBool false]})
      ∧ card !! "endpoints" = Some (JDict endpoints)
      ∧ dom endpoints = {["jsonrpc"; "card"; "agent"; "health"]}
      ∧ ∀ k v, endpoints !! k = Some v →
               ∃ route, route ∈ routes ∧ v = JStr (base_url ++ route)%string.
Proof.
  cbn. split; [done|]. split; [done|].
  eexists _, _. split; [reflexivity|].
  split; [by simplify_map_eq|]. split; [by simplify_map_eq|].
  split; [by simplify_map_eq|]. split; [by simplify_map_eq|].
  split; [rewrite !dom_insert_L, dom_empty_L; set_solver|].
  intros k v Hk. unfold routes.
  repeat (apply lookup_insert_Some in Hk as [[<- <-]|[_ Hk]];
          [eexists; split; [|reflexivity]; set_solver|]).
  by rewrite lookup_empty in Hk.
Qed.

(** The [url] of the card [main] serves is [--card-url] when it is given
    and not empty, and [http://host:port], with the port in decimal,
    otherwise. *)
Theorem main_card_url (args : Args) :
  ∃ card,
    agent_card_json (main_app args) = JDict card
    ∧ card !! "url" = Some (JStr (main_base_url args))
    ∧ (∀ url, card_url args = Some url → url ≠ "" →
              main_base_url args = url)
    ∧ (card_url args = None ∨ card_url args = Some "" →
       main_base_url args
       = ("http://" ++ host args ++ ":" ++ pretty (port args))%string).
Proof.
  unfold main_app.
  exists (match build_agent_card default_agent_name default_agent_description
                  (main_base_url args) default_version
                  default_protocol_version false with
          | JDict card => card
          | _ => ∅
          end).
  split; [by destruct (use_placeholder_agent args)|].
  split; [by simplify_map_eq|].
  unfold main_base_url. split.
  - intros url -> Hne. cbn. by destruct url.
  - intros [->| ->]; done.
Qed.

(** ** More on batches and payloads *)

(** A payload, or a batch item, that is no JSON object makes the handler
    raise [AttributeError] before anything is called; a payload that is
    neither an object nor a list does so at the entry point. *)
Theorem not_an_object_raises (payload : json)
    (run_agent_fn : option agent_fn) :
  (∀ body, payload ≠ JDict body) →
  _handle_single_jsonrpc payload run_agent_fn = MkM [] (Raise AttributeError)
  ∧ ((∀ items, payload ≠ JList items) →
     jsonrpc_root payload run_agent_fn = MkM [] (Raise AttributeError))
  ∧ jsonrpc_root (JList [payload]) run_agent_fn
    = MkM [] (Raise AttributeError).
Proof.
  intros Hno.
  assert (_handle_single_jsonrpc payload run_agent_fn
          = MkM [] (Raise AttributeError)) as Hrun.
  { destruct payload as [| | | | | |body]; try done. by destruct (Hno body). }
  split; [done|]. split.
  - intros Hnl. destruct payload as [| | | | |items|body]; try done.
    by destruct (Hnl items).
  - unfold jsonrpc_root. cbn [batch_loop]. unfold mbind, M_bind.
    by rewrite Hrun.
Qed.

Lemma not_an_object_raises_witness :
  jsonrpc_root (JStr "ping") None = MkM [] (Raise AttributeError).
Proof.
  destruct (not_an_object_raises (JStr "ping") None) as (_ & H & _).
  - intros body H. discriminate.
  - apply H. intros items Hi. discriminate.
Defined.

Lemma batch_loop_notifications (items : list json)
    (run_agent_fn : option agent_fn) (responses : list json) :
  Forall (λ item, ∃ body, item = JDict body ∧ notification body) items →
  batch_loop items run_agent_fn responses = MkM [] (Ok responses).
Proof.
  intros H. revert responses.
  induction H as [|item items (body & -> & Hn) _ IH]; intros responses;
    [done|].
  cbn [batch_loop]. unfold mbind, M_bind.
  rewrite (handle_notification body run_agent_fn Hn). cbn.
  by rewrite IH.
Qed.

(** A batch made of notifications only, the empty batch included, is
    answered with the empty list, and nothing is called. *)
Theorem batch_of_notifications (items : list json)
    (run_agent_fn : option agent_fn) :
  Forall (λ item, ∃ body, item = JDict body ∧ notification body) items →
  jsonrpc_root (JList items) run_agent_fn = MkM [] (Ok (JList [])).
Proof.
  intros H. unfold jsonrpc_root, mbind, M_bind.
  by rewrite (batch_loop_notifications items run_agent_fn [] H).
Qed.

Lemma batch_of_notifications_witness :
  let failing : agent_fn := λ _ _, Raise (AgentException "RuntimeError") in
  let first : gmap string json :=
    <["method" := JStr "extract"]>
      (<["params" := JDict {["input_text" := JStr "a = b"]}]> ∅) in
  let second : gmap string json :=
    <["id" := JNull]> (<["params" := JInt 3]> ∅) in
  jsonrpc_root (JList [JDict first; JDict second]) (Some failing)
  = MkM [] (Ok (JList [])).
Proof.
  intros failing first second.
  apply (batch_of_notifications [JDict first; JDict second] (Some failing)).
  constructor; [|constructor; [|constructor]].
  - exists first. split; [reflexivity|]. left. vm_compute. reflexivity.
  - exists second. split; [reflexivity|]. right. vm_compute. reflexivity.
Defined.

(** An exception ends the whole batch: when an item raises (an agent that
    raises, an item that is no object) after items that returned, the
    entry point raises that exception, the responses gathered so far are
    not returned, and the items after it are not processed at all. *)
Theorem batch_aborts (pre post : list json) (bad : json)
    (run_agent_fn : option agent_fn) (e : exn) :
  Forall (λ item, ∃ r, outcome (_handle_single_jsonrpc item run_agent_fn)
                       = Ok r) pre →
  outcome (_handle_single_jsonrpc bad run_agent_fn) = Raise e →
  outcome (jsonrpc_root (JList (pre ++ bad :: post)) run_agent_fn) = Raise e
  ∧ trace (jsonrpc_root (JList (pre ++ bad :: post)) run_agent_fn)
    = concat ((λ item, trace (_handle_single_jsonrpc item run_agent_fn))
                <$> pre)
      ++ trace (_handle_single_jsonrpc bad run_agent_fn).
Proof.
  intros Hpre Hbad. unfold jsonrpc_root, mbind, M_bind.
  destruct (batch_loop_raises pre post bad run_agent_fn e [] Hpre Hbad)
    as [Ho Ht].
  by rewrite Ho, Ht.
Qed.

Lemma batch_aborts_witness :
  let ok : json :=
    JDict (<["id" := JInt 1]> (<["params" := JDict {["text" := JStr "a = b"]}]> ∅)) in
  outcome (jsonrpc_root (JList [ok; JInt 3; ok]) None) = Raise AttributeError.
Proof.
  intros ok.
  apply (batch_aborts [ok] [ok] (JInt 3) None AttributeError).
  - constructor; [|constructor]. eexists. vm_compute. reflexivity.
  - reflexivity.
Defined.

Lemma returned_is_none (item : json) (run_agent_fn : option agent_fn) :
  never_raises run_agent_fn →
  request_object item →
  is_none (returned (_handle_single_jsonrpc item run_agent_fn))
  = negb (expects_response item).
Proof.
  intros Hag [body ->]. cbn [expects_response]. unfold returned.
  destruct (is_none (py_get body "id")) eqn:Hid.
  - apply notification_is_none in Hid.
    by rewrite (handle_notification body run_agent_fn Hid).
  - assert (¬ notification body) as Hreq.
    { rewrite notification_is_none. by rewrite Hid. }
    by destruct (handle_response body run_agent_fn Hag Hreq) as (r & -> & _).
Qed.

(** With an agent that does not raise, a batch of request objects is
    answered with exactly as many responses as it has items whose [id] is
    present and not null. *)
Theorem batch_response_count (items : list json)
    (run_agent_fn : option agent_fn) :
  never_raises run_agent_fn →
  Forall request_object items →
  ∃ responses,
    outcome (jsonrpc_root (JList items) run_agent_fn) = Ok (JList responses)
    ∧ length responses
      = length (filter (λ item, expects_response item = true) items).
Proof.
  intros Hag Hitems. eexists. split.
  { unfold jsonrpc_root, mbind, M_bind.
    by rewrite (batch_loop_returns items run_agent_fn [] Hag Hitems). }
  cbn [app]. unfold responses_of.
  induction Hitems as [|item items Hitem _ IH]; [done|].
  rewrite fmap_cons.
  pose proof (returned_is_none item run_agent_fn Hag Hitem) as Hnone.
  destruct (expects_response item) eqn:Hexp; cbn in Hnone.
  - rewrite !filter_cons_True by done. cbn. by rewrite IH.
  - rewrite (filter_cons_False _ (returned _)) by (by rewrite Hnone).
    rewrite (filter_cons_False _ item) by (by rewrite Hexp). done.
Qed.

Lemma batch_response_count_witness :
  let request : json :=
    JDict (<["id" := JInt 1]> (<["params" := JDict {["text" := JStr "a = b"]}]> ∅)) in
  let note : json := JDict {["method" := JStr "ping"]} in
  ∃ responses,
    outcome (jsonrpc_root (JList [note; request; note]) None)
    = Ok (JList responses)
    ∧ length responses = 1.
Proof.
  intros request note.
  destruct (batch_response_count [note; request; note] None)
    as (responses & Hout & Hlen).
  - intros f Hf. discriminate.
  - repeat constructor; by eexists.
  - exists responses. split; [exact Hout|]. rewrite Hlen.
    vm_compute. reflexivity.
Defined.

Lemma agent_calls_app (t1 t2 : list event) :
  agent_calls (t1 ++ t2) = agent_calls t1 + agent_calls t2.
Proof. unfold agent_calls. by rewrite filter_app, length_app. Qed.

Lemma agent_calls_nil : agent_calls [] = 0.
Proof. reflexivity. Qed.

Lemma agent_calls_cons (ev : event) (t : list event) :
  agent_calls (ev :: t)
  = (if is_agent_call ev then 1 else 0) + agent_calls t.
Proof.
  unfold agent_calls. destruct (is_agent_call ev) eqn:E.
  - by rewrite filter_cons_True.
  - rewrite filter_cons_False; [done|]. by rewrite E.
Qed.

Ltac count_calls :=
  rewrite ?agent_calls_cons, ?agent_calls_nil; cbn [is_agent_call]; lia.

Lemma handle_agent_calls (payload : json) (run_agent_fn : option agent_fn) :
  (agent_calls (trace (_handle_single_jsonrpc payload run_agent_fn)) ≤ 1)%nat.
Proof.
  destruct payload as [| | | | | |body];
    try (cbn [_handle_single_jsonrpc body_get mbind M_bind raise outcome trace];
         count_calls).
  rewrite handle_run. cbn zeta.
  destruct (is_none (py_get body "id")); [cbn [trace]; count_calls|].
  destruct (_extract_input_from_jsonrpc _) as [[t|] meta];
    [|cbn [trace]; count_calls].
  destruct (agent_result run_agent_fn t meta); cbn [trace]; count_calls.
Qed.

Lemma batch_loop_agent_calls (items : list json)
    (run_agent_fn : option agent_fn) (responses : list json) :
  (agent_calls (trace (batch_loop items run_agent_fn responses))
   ≤ length items)%nat.
Proof.
  revert responses. induction items as [|item items IH]; intros responses;
    [cbn [batch_loop mret M_ret trace length]; count_calls|].
  cbn [batch_loop length]. unfold mbind, M_bind.
  pose proof (handle_agent_calls item run_agent_fn) as Hone.
  destruct (outcome (_handle_single_jsonrpc item run_agent_fn)) as [r|e];
    cbn [trace].
  - rewrite agent_calls_app.
    specialize (IH (if is_none r then responses else responses ++ [r])).
    lia.
  - lia.
Qed.

(** Whatever the payload and whatever the agent does, the agent is called
    at most once for a single request and at most once per item of a
    batch; for a notification it is not called. *)
Theorem agent_called_at_most_once (run_agent_fn : option agent_fn) :
  (∀ payload,
     (agent_calls (trace (_handle_single_jsonrpc payload run_agent_fn))
      ≤ 1)%nat)
  ∧ (∀ items,
       (agent_calls (trace (jsonrpc_root (JList items) run_agent_fn))
        ≤ length items)%nat)
  ∧ (∀ body, notification body →
       agent_calls (trace (_handle_single_jsonrpc (JDict body) run_agent_fn))
       = 0).
Proof.
  split; [intros payload; apply handle_agent_calls|]. split.
  - intros items. unfold jsonrpc_root, mbind, M_bind.
    pose proof (batch_loop_agent_calls items run_agent_fn []) as H.
    destruct (outcome (batch_loop items run_agent_fn [])); cbn [trace].
    + rewrite agent_calls_app. cbn [mret M_ret trace]. count_calls.
    + done.
  - intros body Hn. by rewrite (handle_notification body run_agent_fn Hn).
Qed.

(** ** What the validator accepts *)

Lemma field_string_cases (d : gmap string json) (k : string) :
  is_valid (field_default d k (validate_optional validate_str) None)
  ∨ ∃ v, d !! k = Some v ∧ ¬ optional_string v.
Proof.
  unfold field_default. destruct (d !! k) as [v|]; [|left; by eexists].
  rewrite is_valid_with_loc, is_valid_optional_str.
  destruct v as [| b | z | f | s | l | d'];
    try (right; eexists; split; [done|]; intros [H|[s' H]]; discriminate).
  - left. by left.
  - left. right. by eexists.
Qed.

Lemma field_year_cases (d : gmap string json) :
  is_valid (field_default d "year"
              (validate_optional validate_int_or_str) None)
  ∨ ∃ v, d !! "year" = Some v ∧ ¬ optional_int_or_string v
         ∧ ∀ z, validate_int v ≠ Valid z.
Proof.
  unfold field_default. destruct (d !! "year") as [v|]; [|left; by eexists].
  rewrite is_valid_with_loc.
  assert (∀ w, (∀ s, w ≠ JStr s) → (∀ z, w ≠ JInt z) → w ≠ JNull →
               ¬ optional_int_or_string w) as Hnot.
  { intros w Hs Hz Hn [->|[[z ->]|[s ->]]]; [done | by eapply Hz | by eapply Hs]. }
  destruct v as [| b | z | f | s | l | d']; try (left; by eexists).
  - cbn. destruct (float_as_int f) as [z|e] eqn:Hf; [left; by eexists|].
    right. eexists. split; [done|]. split; [by apply Hnot|].
    intros z. cbn. by rewrite Hf.
  - right. eexists. split; [done|]. split; [by apply Hnot | done].
  - right. eexists. split; [done|]. split; [by apply Hnot | done].
Qed.

Lemma validate_Paper_cases (v : json) :
  is_valid (validate_Paper v) ∨ ∃ path, Paper_violation v path.
Proof.
  destruct v as [| | | | | |d];
    try (right; exists []; by apply Paper_not_record).
  unfold validate_Paper. rewrite !is_valid_vap, !is_valid_Valid.
  destruct (field_string_cases d "doi") as [?|(v & Hv & Hbad)];
    [|right; eexists; apply (Paper_bad_string d "doi" v); [set_solver|done..]].
  destruct (field_string_cases d "title") as [?|(v & Hv & Hbad)];
    [|right; eexists; apply (Paper_bad_string d "title" v); [set_solver|done..]].
  destruct (field_year_cases d) as [?|(v & Hv & Hbad & Hint)];
    [|right; eexists; by apply (Paper_bad_year d v)].
  by left.
Qed.

Lemma validate_Equation_cases (v : json) :
  is_valid (validate_Equation v) ∨ ∃ path, Equation_violation v path.
Proof.
  destruct v as [| | | | | |d];
    try (right; exists []; by apply Equation_not_record).
  unfold validate_Equation. rewrite !is_valid_vap, !is_valid_Valid.
  destruct (field_string_cases d "latex") as [?|(v & Hv & Hbad)];
    [|right; eexists; by apply (Equation_bad_latex d v)].
  left. repeat split; try done.
  unfold field_default, validate_any.
  destruct (d !! "model_performance"); by eexists.
Qed.

Lemma validate_ExtractionMetadata_cases (v : json) :
  is_valid (validate_ExtractionMetadata v)
  ∨ ∃ path, ExtractionMetadata_violation v path.
Proof.
  destruct v as [| | | | | |d];
    try (right; exists []; by apply ExtractionMetadata_not_record).
  unfold validate_ExtractionMetadata. rewrite !is_valid_vap, !is_valid_Valid.
  destruct (field_string_cases d "task_id") as [?|(v & Hv & Hbad)];
    [|right; eexists;
      apply (ExtractionMetadata_bad_string d "task_id" v);
      [unfold ExtractionMetadata_fields; set_solver|done..]].
  destruct (field_string_cases d "input_doi") as [?|(v & Hv & Hbad)];
    [|right; eexists;
      apply (ExtractionMetadata_bad_string d "input_doi" v);
      [unfold ExtractionMetadata_fields; set_solver|done..]].
  destruct (field_string_cases d "schema_name") as [?|(v & Hv & Hbad)];
    [|right; eexists;
      apply (ExtractionMetadata_bad_string d "schema_name" v);
      [unfold ExtractionMetadata_fields; set_solver|done..]].
  destruct (field_string_cases d "schema_version") as [?|(v & Hv & Hbad)];
    [|right; eexists;
      apply (ExtractionMetadata_bad_string d "schema_version" v);
      [unfold ExtractionMetadata_fields; set_solver|done..]].
  by left.
Qed.

Lemma validate_items_cases (l : list json) (j : nat) :
  is_valid (validate_items validate_Equation j l)
  ∨ ∃ i x path, l !! i = Some x ∧ Equation_violation x path.
Proof.
  revert j. induction l as [|x l IH]; intros j; [left; by eexists|].
  cbn [validate_items]. rewrite !is_valid_vap, is_valid_with_loc, is_valid_Valid.
  destruct (validate_Equation_cases x) as [?|[path Hx]];
    [|right; by exists 0, x, path].
  destruct (IH (S j)) as [?|(i & y & path & Hi & Hy)];
    [by left | right; by exists (S i), y, path].
Qed.

Lemma model_validate_cases (v : json) :
  is_valid (model_validate v) ∨ ∃ path, violation v path.
Proof.
  destruct v as [| | | | | |d];
    try (right; exists []; by apply Output_not_record).
  unfold model_validate. rewrite !is_valid_vap, !is_valid_Valid.
  unfold field_required.
  destruct (d !! "paper") as [vp|] eqn:Hp;
    [|right; eexists; apply (Output_missing d "paper");
      [unfold ExtractionOutput_fields; set_solver | done]].
  destruct (d !! "equations") as [ve|] eqn:He;
    [|right; eexists; apply (Output_missing d "equations");
      [unfold ExtractionOutput_fields; set_solver | done]].
  destruct (d !! "extraction_metadata") as [vm|] eqn:Hm;
    [|right; eexists; apply (Output_missing d "extraction_metadata");
      [unfold ExtractionOutput_fields; set_solver | done]].
  rewrite !is_valid_with_loc.
  destruct (validate_Paper_cases vp) as [?|[path Hv]];
    [|right; eexists; by apply (Output_paper d vp path)].
  destruct (validate_ExtractionMetadata_cases vm) as [?|[path Hv]];
    [|right; eexists; by apply (Output_metadata d vm path)].
  destruct ve as [| | | | |l|];
    try (right; eexists; by eapply Output_equations_not_list).
  cbn [validate_list].
  destruct (validate_items_cases l 0) as [?|(i & x & path & Hi & Hx)];
    [by left | right; eexists; by apply (Output_equation d l i x path)].
Qed.

(** The validator accepts a value exactly when the value has no
    field-level violation: it is a record, [paper], [equations] and
    [extraction_metadata] are present, records and a list of records, and
    every declared field that is present holds a value of its type. *)
Theorem validate_accepts_iff (v : json) :
  is_valid (model_validate v) ↔ ∀ path, ¬ violation v path.
Proof.
  split.
  - intros [o Ho] path (e & He & _)%violation_reported.
    rewrite Ho in He. by apply elem_of_nil in He.
  - intros Hno. destruct (model_validate_cases v) as [?|[path Hv]]; [done|].
    by destruct (Hno path).
Qed.

(** ** What the handler passes on *)

(** The handler hands to the agent nothing but the text and the metadata
    the extractor returned for the [params] of the request, and to the
    validator nothing but the value the agent returned for them. *)
Theorem handler_passes_on (body : gmap string json)
    (run_agent_fn : option agent_fn) :
  let params := py_get_default body "params" (JDict ∅) in
  let calls := trace (_handle_single_jsonrpc (JDict body) run_agent_fn) in
  (∀ p, EvExtract p ∈ calls → p = params)
  ∧ (∀ text meta, EvAgent text meta ∈ calls →
       _extract_input_from_jsonrpc params = (Some text, meta))
  ∧ (∀ output, EvValidate output ∈ calls →
       ∃ text meta,
         _extract_input_from_jsonrpc params = (Some text, meta)
         ∧ agent_result run_agent_fn text meta = Ok output).
Proof.
  intros params calls. subst params calls. rewrite handle_run. cbn zeta.
  destruct (is_none (py_get body "id")).
  { cbn [trace]. repeat split; intros; by apply elem_of_nil in H. }
  destruct (_extract_input_from_jsonrpc _) as [[t|] m] eqn:Hex.
  - destruct (agent_result run_agent_fn t m) as [out|e] eqn:Hag;
      cbn [trace]; repeat split.
    + intros p Hp. set_solver.
    + intros text meta Hin. set_solver.
    + intros output Hin. exists t, m. set_solver.
    + intros p Hp. set_solver.
    + intros text meta Hin. set_solver.
    + intros output Hin. set_solver.
  - cbn [trace]. repeat split.
    + intros p Hp. set_solver.
    + intros text meta Hin. set_solver.
    + intros output Hin. set_solver.
Qed.
